(** * File server back end: routes over a metadata store and an upload directory

    A shallow embedding of the Express routes of the file server: the
    register and current-user routes and the file routes (upload, list,
    download, delete, rename), which the sources keep in [routes/auth.js],
    the SQLite schema they run on ([config/db.js]) and the error
    middleware of the server module.

    The two tables are finite maps keyed by rowid, the upload directory is a
    finite map from paths to nodes, and a route is a function from a
    [world] to a response and the [world] it leaves behind.  A handler body
    runs in a small state-and-exception monad: a statement that throws
    leaves the effects already made in place, which is what the
    [try { ... } catch] of every handler does. *)

From Stdlib Require Import ZArith String List.
From Stdlib.Strings Require Import Byte.
From stdpp Require Import base decidable option list gmap fin_maps strings
  pretty sorting.

Set Warnings "-register-all".
Local Open Scope Z_scope.
Local Open Scope string_scope.

(** ** Values that cross the HTTP boundary *)

(** The claims of a session token, which is what [req.user] holds once the
    request is authenticated. *)
Record claims := Claims {
  tok_id : Z;
  tok_username : string;
  tok_email : string
}.

(** A signed token.  The signature is kept abstract: the token remembers the
    secret it was signed with, and [exp] is its expiry in seconds. *)
Record token := Token {
  payload : claims;
  exp : Z;
  signed_with : string
}.

Inductive json :=
  | JNull
  | JNum (n : Z)
  | JStr (s : string)
  | JTok (t : token)
  | JArr (items : list json)
  | JObj (fields : list (string * json)).

Inductive auth_error := Unauthenticated | InvalidToken | TokenExpired.

Inductive response :=
  | Json (status : Z) (body : json)
      (* res.status(status).json(body) *)
  | Attachment (name : string) (content : list byte)
      (* res.download(path, name): the bytes at path, offered as name *)
  | AuthRejected (e : auth_error)
      (* the answer of the authentication middleware *)
  | FinalHandler (status : Z).
      (* the default error page of Express *)

Definition status_of (r : response) : option Z :=
  match r with
  | Json st _ => Some st
  | Attachment _ _ => Some 200
  | AuthRejected _ => None
  | FinalHandler st => Some st
  end.

(** [req.params.id] is text.  It is bound to [files.id], an INTEGER column,
    so SQLite compares it as a number: a parameter that denotes an integer
    is [ParamInt], any other text is [ParamText] and equals no rowid. *)
Inductive route_param :=
  | ParamInt (k : Z)
  | ParamText (s : string).

Definition param_rowid (p : route_param) : option Z :=
  match p with
  | ParamInt k => Some k
  | ParamText _ => None
  end.

(** A field of [req.body] is absent or a string; [!v] holds of an absent
    field and of the empty string. *)
Definition falsy (v : option string) : bool :=
  match v with
  | None => true
  | Some s => bool_decide (s = "")
  end.

(** A string of the model holds the UTF-8 bytes of the JavaScript string.
    [s.length] counts UTF-16 code units: one for every code point that
    UTF-8 writes in one, two or three bytes, two for a code point of four
    bytes, none for a continuation byte. *)
Definition utf16_units (c : Ascii.ascii) : nat :=
  let n := Ascii.N_of_ascii c in
  if (n <? 128)%N then 1%nat
  else if (n <? 192)%N then 0%nat
  else if (n <? 240)%N then 1%nat
  else 2%nat.

Fixpoint js_length (s : string) : nat :=
  match s with
  | EmptyString => 0%nat
  | String c rest => (utf16_units c + js_length rest)%nat
  end.

(** One file part of a multipart request, with the two observations the
    storage engine makes while it stores the part: [Date.now()] and
    [Math.round(Math.random() * 1E9)]. *)
Record incoming_file := IncomingFile {
  originalname : string;
  in_mimetype : string;
  content : list byte;
  date_now : Z;
  random_1e9 : Z
}.

(** An entry of [req.files] as the upload handler reads it. *)
Record multer_file := MulterFile {
  mf_filename : string;
  mf_originalname : string;
  mf_size : Z;
  mf_mimetype : string;
  mf_path : string
}.

(** ** Configuration *)

(** [uploadsDir] is [path.join(__dirname, '..', 'uploads')];
    [MAX_FILE_SIZE] is [parseInt(process.env.MAX_FILE_SIZE)], with [None]
    for NaN; [JWT_SECRET] is the signing secret of the deployment. *)
Record config := Config {
  uploadsDir : string;
  MAX_FILE_SIZE : option Z;
  JWT_SECRET : string
}.

(** ** The database ([config/db.js]) *)

Record user_row := UserRow {
  u_username : string;
  u_email : string;
  u_password : string;
  u_created_at : Z
}.

Record file_row := FileRow {
  f_user_id : Z;
  f_filename : string;
  f_original_name : string;
  f_size : Z;
  f_mimetype : string;
  f_upload_date : Z
}.

(** Both tables have [id INTEGER PRIMARY KEY AUTOINCREMENT]: a table is a
    map from rowid to row, together with the largest rowid it ever handed
    out (its entry in [sqlite_sequence]). *)
Record database := Database {
  users : gmap Z user_row;
  users_seq : Z;
  files : gmap Z file_row;
  files_seq : Z
}.

Inductive fs_node :=
  | File (data : list byte)
  | Dir.

Inductive effect :=
  | Sql (statement : string)
  | Fs (call : string) (path : string)
  | Console (label : string).

Record world := World {
  w_db : database;
  w_fs : gmap string fs_node;
  w_trace : list effect
}.

Inductive exn :=
  | SqliteError (code : string)
  | FsError (code : string) (path : string).

(** ** Statements that may throw *)

Inductive outcome (A : Type) :=
  | Returned (a : A)
  | Thrown (e : exn).
Arguments Returned {A} a.
Arguments Thrown {A} e.

Definition M (A : Type) : Type := world -> outcome A * world.

Definition ret {A} (a : A) : M A := fun w => (Returned a, w).

Definition throw {A} (e : exn) : M A := fun w => (Thrown e, w).

Definition bind {A B} (m : M A) (k : A -> M B) : M B :=
  fun w =>
    match m w with
    | (Returned a, w') => k a w'
    | (Thrown e, w') => (Thrown e, w')
    end.

Declare Scope js_scope.
Delimit Scope js_scope with js.
Notation "x <- c1 ;; c2" := (bind c1 (fun x => c2))
  (at level 100, c1 at next level, right associativity) : js_scope.
Notation "c1 ;; c2" := (bind c1 (fun _ => c2))
  (at level 100, right associativity) : js_scope.
Local Open Scope js_scope.

(** [attempt m] runs [m] and hands a thrown exception back as a value. *)
Definition attempt {A} (m : M A) : M (exn + A) :=
  fun w =>
    match m w with
    | (Returned a, w') => (Returned (inr a), w')
    | (Thrown e, w') => (Returned (inl e), w')
    end.

Definition emit (e : effect) : M unit :=
  fun w => (Returned tt, World (w_db w) (w_fs w) (w_trace w ++ [e])).

Definition get_db : M database := fun w => (Returned (w_db w), w).

Definition put_db (d : database) : M unit :=
  fun w => (Returned tt, World d (w_fs w) (w_trace w)).

Definition get_fs : M (gmap string fs_node) := fun w => (Returned (w_fs w), w).

Definition put_fs (f : gmap string fs_node) : M unit :=
  fun w => (Returned tt, World (w_db w) f (w_trace w)).

Definition error_body (msg : string) : json := JObj [("error", JStr msg)].

(** The shape of every handler: [try { body } catch (error) {
    console.error(label, error); res.status(500).json({ error: msg }) }]. *)
Definition handle (label msg : string) (body : M response)
    : world -> response * world :=
  fun w =>
    match body w with
    | (Returned r, w') => (r, w')
    | (Thrown _, w') =>
        (Json 500 (error_body msg),
         World (w_db w') (w_fs w') (w_trace w' ++ [Console label]))
    end.

(** ** SQL statements *)

(** AUTOINCREMENT: the new rowid is one more than the largest rowid the
    table holds or ever held. *)
Definition max_rowid {A} (t : gmap Z A) : Z :=
  foldr Z.max 0 (map_to_list t).*1.

Definition next_rowid {A} (seq : Z) (t : gmap Z A) : Z :=
  Z.max seq (max_rowid t) + 1.

Definition select_user_by_email_or_username
    (d : database) (email username : string) : option (Z * user_row) :=
  head (filter (fun kv : Z * user_row =>
                  u_email kv.2 = email \/ u_username kv.2 = username)
               (map_to_list (users d))).

Definition sql_get_user_by_email_or_username (email username : string)
    : M (option (Z * user_row)) :=
  emit (Sql "SELECT * FROM users WHERE email = ? OR username = ?") ;;
  d <- get_db ;;
  ret (select_user_by_email_or_username d email username).

(** [username] and [email] are UNIQUE: the insert throws when a row holds
    either of them already. *)
Definition sql_insert_user (username email hashedPassword : string) (now : Z)
    : M Z :=
  emit (Sql "INSERT INTO users (username, email, password) VALUES (?, ?, ?)") ;;
  d <- get_db ;;
  match select_user_by_email_or_username d email username with
  | Some _ => throw (SqliteError "SQLITE_CONSTRAINT_UNIQUE")
  | None =>
      let k := next_rowid (users_seq d) (users d) in
      put_db (Database
                (<[k := UserRow username email hashedPassword now]> (users d))
                k (files d) (files_seq d)) ;;
      ret k
  end.

Definition sql_get_user_by_id (id : Z) : M (option user_row) :=
  emit (Sql "SELECT id, username, email, created_at FROM users WHERE id = ?") ;;
  d <- get_db ;;
  ret (users d !! id).

Definition select_file_owned (d : database) (fileId : route_param) (uid : Z)
    : option (Z * file_row) :=
  match param_rowid fileId with
  | None => None
  | Some k =>
      match files d !! k with
      | Some r => if decide (f_user_id r = uid) then Some (k, r) else None
      | None => None
      end
  end.

Definition sql_get_file (fileId : route_param) (uid : Z)
    : M (option (Z * file_row)) :=
  emit (Sql "SELECT * FROM files WHERE id = ? AND user_id = ?") ;;
  d <- get_db ;;
  ret (select_file_owned d fileId uid).

(** [user_id] REFERENCES [users(id)], and the driver opens the database with
    foreign keys enforced: the insert throws when no user has that id.
    [upload_date] defaults to CURRENT_TIMESTAMP, here [now]. *)
Definition sql_insert_file
    (uid : Z) (name original : string) (sz : Z) (mime : string) (now : Z)
    : M Z :=
  emit (Sql "INSERT INTO files (user_id, filename, original_name, size, mimetype) VALUES (?, ?, ?, ?, ?)") ;;
  d <- get_db ;;
  match users d !! uid with
  | None => throw (SqliteError "SQLITE_CONSTRAINT_FOREIGNKEY")
  | Some _ =>
      let k := next_rowid (files_seq d) (files d) in
      put_db (Database (users d) (users_seq d)
                (<[k := FileRow uid name original sz mime now]> (files d)) k) ;;
      ret k
  end.

Definition set_original_name (newName : string) (r : file_row) : file_row :=
  FileRow (f_user_id r) (f_filename r) newName (f_size r) (f_mimetype r)
          (f_upload_date r).

Definition update_original_name
    (d : database) (fileId : route_param) (newName : string) : database :=
  match param_rowid fileId with
  | None => d
  | Some k =>
      Database (users d) (users_seq d)
               (alter (set_original_name newName) k (files d)) (files_seq d)
  end.

Definition sql_update_original_name (newName : string) (fileId : route_param)
    : M unit :=
  emit (Sql "UPDATE files SET original_name = ? WHERE id = ?") ;;
  d <- get_db ;;
  put_db (update_original_name d fileId newName).

Definition delete_file_row (d : database) (fileId : route_param) : database :=
  match param_rowid fileId with
  | None => d
  | Some k =>
      Database (users d) (users_seq d) (delete k (files d)) (files_seq d)
  end.

Definition sql_delete_file (fileId : route_param) : M unit :=
  emit (Sql "DELETE FROM files WHERE id = ?") ;;
  d <- get_db ;;
  put_db (delete_file_row d fileId).

(** [ORDER BY upload_date DESC]: [a] may come before [b] when [a] is not
    older than [b]. *)
Definition newer_first (a b : Z * file_row) : Prop :=
  f_upload_date b.2 <= f_upload_date a.2.

#[global] Instance newer_first_dec : RelDecision newer_first.
Proof. intros a b. unfold newer_first. apply _. Defined.

Definition select_files_by_user (d : database) (uid : Z)
    : list (Z * file_row) :=
  merge_sort newer_first
    (filter (fun kv : Z * file_row => f_user_id kv.2 = uid)
            (map_to_list (files d))).

Definition sql_all_files (uid : Z) : M (list (Z * file_row)) :=
  emit (Sql "SELECT id, filename, original_name, size, mimetype, upload_date FROM files WHERE user_id = ? ORDER BY upload_date DESC") ;;
  d <- get_db ;;
  ret (select_files_by_user d uid).

(** ** The upload directory *)

(** [path.join] of segments that hold no separator and are neither [.]
    nor [..]. *)
Definition path_join (segments : list string) : string :=
  String.concat "/" segments.

Definition existsSync (p : string) : M bool :=
  emit (Fs "existsSync" p) ;;
  f <- get_fs ;;
  ret (match f !! p with Some _ => true | None => false end).

Definition unlinkSync (p : string) : M unit :=
  emit (Fs "unlinkSync" p) ;;
  f <- get_fs ;;
  match f !! p with
  | Some (File _) => put_fs (delete p f)
  | Some Dir => throw (FsError "EISDIR" p)
  | None => throw (FsError "ENOENT" p)
  end.

(** [fs.mkdirSync(p, { recursive: true })] *)
Definition mkdirSync (p : string) : M unit :=
  emit (Fs "mkdirSync" p) ;;
  f <- get_fs ;;
  match f !! p with
  | None => put_fs (<[p := Dir]> f)
  | Some Dir => ret tt
  | Some (File _) => throw (FsError "EEXIST" p)
  end.

(** The write stream of the disk storage engine: it creates or truncates
    [dir/name], which needs [dir] to be a directory and [dir/name] not to
    be one. *)
Definition writeFile (dir name : string) (data : list byte) : M unit :=
  let p := path_join [dir; name] in
  emit (Fs "createWriteStream" p) ;;
  f <- get_fs ;;
  match f !! dir with
  | Some Dir =>
      match f !! p with
      | Some Dir => throw (FsError "EISDIR" p)
      | _ => put_fs (<[p := File data]> f)
      end
  | Some (File _) => throw (FsError "ENOTDIR" p)
  | None => throw (FsError "ENOENT" p)
  end.

(** ** Session tokens *)

(** [jwt.sign(claims, secret, { expiresIn: '7d' })] at time [now]. *)
Definition jwt_sign (c : claims) (secret : string) (now : Z) : token :=
  Token c (now + 7 * 24 * 3600) secret.

(** Modelled from the spec: [middleware/auth.js], which defines
    [authenticateToken], is not among the sources.  A request with no
    bearer token is [Unauthenticated]; a token signed with another secret
    is an [InvalidToken]; a token is valid while [now < exp], and
    [TokenExpired] from then on; a valid token yields the identity it
    embeds, which the routes read as [req.user]. *)
Definition authenticateToken (secret : string) (now : Z) (auth : option token)
    : auth_error + claims :=
  match auth with
  | None => inl Unauthenticated
  | Some t =>
      if decide (signed_with t = secret)
      then if decide (now < exp t) then inr (payload t) else inl TokenExpired
      else inl InvalidToken
  end.

Definition authenticated (secret : string) (now : Z) (auth : option token)
    (route : claims -> world -> response * world)
    : world -> response * world :=
  match authenticateToken secret now auth with
  | inl e => fun w => (AuthRejected e, w)
  | inr user => route user
  end.

(** ** The error middleware of the server module *)

Inductive app_error :=
  | MulterError (code : string)
  | IoError (e : exn).

(** [app.use((err, req, res, next) => ...)]: it logs [err.stack] and then
    evaluates [err instanceof multer.MulterError].  The server module
    imports no [multer], so that test throws a ReferenceError whatever
    [err] is, and Express answers with its default error page. *)
Definition error_middleware (err : app_error) : world -> response * world :=
  fun w =>
    (FinalHandler 500,
     World (w_db w) (w_fs w) (w_trace w ++ [Console "err.stack"])).

Definition next_err {A} (err : app_error) (k : response -> A) : M A :=
  fun w => let '(r, w') := error_middleware err w in (Returned (k r), w').

(** ** The upload engine

    [multer] is a dependency of the server.  Its engine is modelled after
    its documented behaviour, with the disk storage and the limits that the
    file routes configure. *)

(** [limits.fileSize]: [parseInt(process.env.MAX_FILE_SIZE) || 10485760] *)
Definition fileSize (cfg : config) : Z :=
  match MAX_FILE_SIZE cfg with
  | Some n => if decide (n = 0) then 10485760 else n
  | None => 10485760
  end.

(** [storage.destination] *)
Definition destination (cfg : config) (user : claims) : M string :=
  let userDir := path_join [uploadsDir cfg; pretty (tok_id user)] in
  present <- existsSync userDir ;;
  (if present : bool then ret tt else mkdirSync userDir) ;;
  ret userDir.

(** [storage.filename] *)
Definition filename (file : incoming_file) : string :=
  let uniqueSuffix :=
    pretty (date_now file) +:+ "-" +:+ pretty (random_1e9 file) in
  uniqueSuffix +:+ "-" +:+ originalname file.

(** On an error the engine unlinks what the request has stored so far and
    keeps going when an unlink fails. *)
Fixpoint removeUploadedFiles (uploaded : list multer_file) : M unit :=
  match uploaded with
  | [] => ret tt
  | file :: rest =>
      attempt (unlinkSync (mf_path file)) ;;
      removeUploadedFiles rest
  end.

(** The disk storage stores one part: it asks [destination] and [filename]
    and writes the bytes, at most [limits.fileSize] of them, to that
    place. *)
Definition handleFile (cfg : config) (user : claims) (part : incoming_file)
    : M multer_file :=
  dir <- destination cfg user ;;
  let name := filename part in
  let data := take (Z.to_nat (fileSize cfg)) (content part) in
  writeFile dir name data ;;
  ret (MulterFile name (originalname part) (Z.of_nat (length data))
         (in_mimetype part) (path_join [dir; name])).

(** [upload.array('files', maxCount)]: the parts are stored one after the
    other.  A part beyond [maxCount] is LIMIT_UNEXPECTED_FILE; a part
    longer than [limits.fileSize] is cut at the limit and is
    LIMIT_FILE_SIZE. *)
Fixpoint upload_array (cfg : config) (user : claims) (maxCount : nat)
    (parts : list incoming_file) (uploaded : list multer_file) {struct parts}
    : M (app_error + list multer_file) :=
  match parts with
  | [] => ret (inr uploaded)
  | part :: rest =>
      match maxCount with
      | O =>
          removeUploadedFiles uploaded ;;
          ret (inl (MulterError "LIMIT_UNEXPECTED_FILE"))
      | S remaining =>
          stored <- attempt (handleFile cfg user part) ;;
          match stored with
          | inl e =>
              removeUploadedFiles uploaded ;;
              ret (inl (IoError e))
          | inr file =>
              if decide (fileSize cfg < Z.of_nat (length (content part)))
              then removeUploadedFiles (uploaded ++ [file]) ;;
                   ret (inl (MulterError "LIMIT_FILE_SIZE"))
              else upload_array cfg user remaining rest (uploaded ++ [file])
          end
      end
  end.

(** ** The routes *)

Section Routes.

(** [bcrypt.hash(password, 10)] draws a salt; [bcrypt_hash password salt]
    is the hash it returns for that salt. *)
Context (cfg : config) (bcrypt_hash : string -> string -> string).

(** [router.post('/register')] *)
Definition register_body (username email password : option string)
    (salt : string) (now : Z) : M response :=
  if falsy username || falsy email || falsy password
  then ret (Json 400 (error_body "All fields are required"))
  else
    let username := default "" username in
    let email := default "" email in
    let password := default "" password in
    if decide (Z.of_nat (js_length password) < 6)
    then ret (Json 400 (error_body "Password must be at least 6 characters"))
    else
      existingUser <- sql_get_user_by_email_or_username email username ;;
      match existingUser with
      | Some _ => ret (Json 400 (error_body "User already exists"))
      | None =>
          let hashedPassword := bcrypt_hash password salt in
          id <- sql_insert_user username email hashedPassword now ;;
          let token := jwt_sign (Claims id username email)
                                (JWT_SECRET cfg) now in
          ret (Json 201 (JObj [
            ("message", JStr "User registered successfully");
            ("token", JTok token);
            ("user", JObj [("id", JNum id); ("username", JStr username);
                           ("email", JStr email)])]))
      end.

Definition register (username email password : option string)
    (salt : string) (now : Z) : world -> response * world :=
  handle "Register error:" "Server error"
         (register_body username email password salt now).

Definition user_json (id : Z) (u : user_row) : json :=
  JObj [("id", JNum id); ("username", JStr (u_username u));
        ("email", JStr (u_email u)); ("created_at", JNum (u_created_at u))].

(** [router.get('/me')] *)
Definition me_body (user : claims) : M response :=
  found <- sql_get_user_by_id (tok_id user) ;;
  match found with
  | None => ret (Json 404 (error_body "User not found"))
  | Some u => ret (Json 200 (user_json (tok_id user) u))
  end.

Definition me (now : Z) (auth : option token) : world -> response * world :=
  authenticated (JWT_SECRET cfg) now auth
    (fun user => handle "Get user error:" "Server error" (me_body user)).

Definition uploaded_json (id : Z) (file : multer_file) : json :=
  JObj [("id", JNum id); ("filename", JStr (mf_filename file));
        ("originalName", JStr (mf_originalname file));
        ("size", JNum (mf_size file));
        ("mimetype", JStr (mf_mimetype file))].

(** [for (const file of req.files) { ... }] *)
Fixpoint upload_loop (user : claims) (now : Z) (files : list multer_file)
    (uploadedFiles : list json) : M (list json) :=
  match files with
  | [] => ret uploadedFiles
  | file :: rest =>
      id <- sql_insert_file (tok_id user) (mf_filename file)
              (mf_originalname file) (mf_size file) (mf_mimetype file) now ;;
      upload_loop user now rest (uploadedFiles ++ [uploaded_json id file])
  end.

(** [router.post('/upload')], the handler; [req.files] is absent when the
    request was not multipart. *)
Definition upload_body (user : claims) (req_files : option (list multer_file))
    (now : Z) : M response :=
  match req_files with
  | None | Some [] => ret (Json 400 (error_body "No files uploaded"))
  | Some files =>
      uploadedFiles <- upload_loop user now files [] ;;
      ret (Json 201 (JObj [("message", JStr "Files uploaded successfully");
                           ("files", JArr uploadedFiles)]))
  end.

Definition upload_handler (user : claims)
    (req_files : option (list multer_file)) (now : Z)
    : world -> response * world :=
  handle "Upload error:" "Failed to upload files"
         (upload_body user req_files now).

(** The route: [authenticateToken], then [upload.array('files', 10)],
    then the handler. *)
Definition upload_route (user : claims)
    (parts : option (list incoming_file)) (now : Z)
    : world -> response * world :=
  match parts with
  | None => upload_handler user None now
  | Some parts =>
      fun w =>
        match upload_array cfg user 10 parts [] w with
        | (Returned (inr files), w') => upload_handler user (Some files) now w'
        | (Returned (inl err), w') => error_middleware err w'
        | (Thrown e, w') => error_middleware (IoError e) w'
        end
  end.

Definition upload (now : Z) (auth : option token)
    (parts : option (list incoming_file)) : world -> response * world :=
  authenticated (JWT_SECRET cfg) now auth
    (fun user => upload_route user parts now).

Definition file_json (kv : Z * file_row) : json :=
  JObj [("id", JNum kv.1); ("filename", JStr (f_filename kv.2));
        ("original_name", JStr (f_original_name kv.2));
        ("size", JNum (f_size kv.2));
        ("mimetype", JStr (f_mimetype kv.2));
        ("upload_date", JNum (f_upload_date kv.2))].

(** [router.get('/')] *)
Definition list_body (user : claims) : M response :=
  files <- sql_all_files (tok_id user) ;;
  ret (Json 200 (JArr (file_json <$> files))).

Definition list_files (now : Z) (auth : option token)
    : world -> response * world :=
  authenticated (JWT_SECRET cfg) now auth
    (fun user =>
       handle "Get files error:" "Failed to retrieve files" (list_body user)).

(** [res.download(filePath, name)], called without a callback: the file
    is sent as an attachment called [name].  For a directory Express calls
    [next()] with no error, no later route matches and the request ends
    with the default 404 page; any other failure to read goes to
    [next(err)]. *)
Definition res_download (filePath name : string) : M response :=
  f <- get_fs ;;
  match f !! filePath with
  | Some (File data) => ret (Attachment name data)
  | Some Dir => ret (FinalHandler 404)
  | None => next_err (IoError (FsError "ENOENT" filePath)) id
  end.

Definition file_path (user : claims) (file : file_row) : string :=
  path_join [uploadsDir cfg; pretty (tok_id user); f_filename file].

(** [router.get('/download/:id')] *)
Definition download_body (user : claims) (fileId : route_param)
    : M response :=
  file <- sql_get_file fileId (tok_id user) ;;
  match file with
  | None => ret (Json 404 (error_body "File not found"))
  | Some (_, file) =>
      let filePath := file_path user file in
      present <- existsSync filePath ;;
      if negb present
      then ret (Json 404 (error_body "File not found on server"))
      else res_download filePath (f_original_name file)
  end.

Definition download (now : Z) (auth : option token) (fileId : route_param)
    : world -> response * world :=
  authenticated (JWT_SECRET cfg) now auth
    (fun user =>
       handle "Download error:" "Failed to download file"
              (download_body user fileId)).

(** [router.delete('/:id')] *)
Definition delete_body (user : claims) (fileId : route_param)
    : M response :=
  file <- sql_get_file fileId (tok_id user) ;;
  match file with
  | None => ret (Json 404 (error_body "File not found"))
  | Some (_, file) =>
      let filePath := file_path user file in
      present <- existsSync filePath ;;
      (if present : bool then unlinkSync filePath else ret tt) ;;
      sql_delete_file fileId ;;
      ret (Json 200 (JObj [("message", JStr "File deleted successfully")]))
  end.

Definition delete_file (now : Z) (auth : option token)
    (fileId : route_param) : world -> response * world :=
  authenticated (JWT_SECRET cfg) now auth
    (fun user =>
       handle "Delete error:" "Failed to delete file"
              (delete_body user fileId)).

(** [router.put('/rename/:id')] *)
Definition rename_body (user : claims) (fileId : route_param)
    (newName : option string) : M response :=
  if falsy newName
  then ret (Json 400 (error_body "New name is required"))
  else
    let newName := default "" newName in
    file <- sql_get_file fileId (tok_id user) ;;
    match file with
    | None => ret (Json 404 (error_body "File not found"))
    | Some _ =>
        sql_update_original_name newName fileId ;;
        ret (Json 200 (JObj [("message", JStr "File renamed successfully");
                             ("newName", JStr newName)]))
    end.

Definition rename (now : Z) (auth : option token) (fileId : route_param)
    (newName : option string) : world -> response * world :=
  authenticated (JWT_SECRET cfg) now auth
    (fun user =>
       handle "Rename error:" "Failed to rename file"
              (rename_body user fileId newName)).

End Routes.

(** ** Notions used in the statements *)

(** The catalog holds no record [fileId] that [uid] owns: the record is
    absent, or it belongs to another user. *)
Definition not_owned (d : database) (fileId : route_param) (uid : Z) : Prop :=
  forall k r,
    param_rowid fileId = Some k -> files d !! k = Some r -> f_user_id r <> uid.

(** Some user row holds [email] or [username] already. *)
Definition user_conflict (d : database) (email username : string) : Prop :=
  exists k r,
    users d !! k = Some r /\ (u_email r = email \/ u_username r = username).

(** The artifact of a catalog record, and an artifact without a record. *)
Definition artifact_path (cfg : config) (r : file_row) : string :=
  path_join [uploadsDir cfg; pretty (f_user_id r); f_filename r].




(** What the engine leaves in [req.files] for a part it stored whole. *)
Definition stored_file (cfg : config) (user : claims) (part : incoming_file)
    : multer_file :=
  MulterFile (filename part) (originalname part)
    (Z.of_nat (length (content part))) (in_mimetype part)
    (path_join [uploadsDir cfg; pretty (tok_id user); filename part]).

(** The record the upload handler inserts for an entry of [req.files]. *)
Definition row_of (user : claims) (now : Z) (f : multer_file) : file_row :=
  FileRow (tok_id user) (mf_filename f) (mf_originalname f) (mf_size f)
          (mf_mimetype f) now.

Definition not_found : response := Json 404 (error_body "File not found").

(** A request left both stores as they were. *)
Definition stores_kept (w : world) (rw : response * world) : Prop :=
  w_db rw.2 = w_db w /\ w_fs rw.2 = w_fs w.

Definition deleted_ok : response :=
  Json 200 (JObj [("message", JStr "File deleted successfully")]).

Definition renamed_ok (newName : string) : response :=
  Json 200 (JObj [("message", JStr "File renamed successfully");
                  ("newName", JStr newName)]).

(** Download, delete and rename of a file the caller does not own all
    answer 404, whatever the request carries. *)
Definition unowned_always_404 : Prop :=
  forall cfg now auth user fileId newName w,
    authenticateToken (JWT_SECRET cfg) now auth = inr user ->
    not_owned (w_db w) fileId (tok_id user) ->
    status_of (download cfg now auth fileId w).1 = Some 404 /\
    status_of (delete_file cfg now auth fileId w).1 = Some 404 /\
    status_of (rename cfg now auth fileId newName w).1 = Some 404.

(** No catalog record survives a delete whose ownership check passed. *)
Definition delete_always_removes_record : Prop :=
  forall cfg now auth user fileId k r w,
    authenticateToken (JWT_SECRET cfg) now auth = inr user ->
    param_rowid fileId = Some k ->
    files (w_db w) !! k = Some r ->
    f_user_id r = tok_id user ->
    files (w_db (delete_file cfg now auth fileId w).2) !! k = None.

(** With a password of six characters or more, [register] adds a user
    row exactly when no row shares the email or the username. *)
Definition register_creates_iff_no_conflict : Prop :=
  forall cfg hash username email password salt now w,
    6 <= Z.of_nat (js_length password) ->
    (~ user_conflict (w_db w) email username <->
     users (w_db (register cfg hash (Some username) (Some email)
                    (Some password) salt now w).2) <> users (w_db w)).

(** The answer to an accepted upload whose records got the rowids [ids]. *)
Definition uploaded_response (ids : list Z) (fl : list multer_file)
    : response :=
  Json 201 (JObj [("message", JStr "Files uploaded successfully");
                  ("files", JArr (zip_with uploaded_json ids fl))]).


(** Every part of an accepted upload comes back from a download of the
    identifier the answer gives it, with its bytes and its original
    name. *)
Definition upload_round_trips : Prop :=
  forall cfg now now' auth user parts ids w,
    authenticateToken (JWT_SECRET cfg) now auth = inr user ->
    authenticateToken (JWT_SECRET cfg) now' auth = inr user ->
    (upload cfg now auth (Some parts) w).1
      = uploaded_response ids (stored_file cfg user <$> parts) ->
    length ids = length parts ->
    forall i id part,
      ids !! i = Some id -> parts !! i = Some part ->
      (download cfg now' auth (ParamInt id)
         (upload cfg now auth (Some parts) w).2).1
        = Attachment (originalname part) (content part).


(** Some fixed data for the examples. *)
Module Sample.
Definition cfg : config := Config "uploads" None "s3cret".
Definition hash (password salt : string) : string :=
  salt +:+ "$" +:+ password.
Definition alice : claims := Claims 1 "alice" "alice@x.com".
Definition bob : claims := Claims 2 "bob" "bob@x.com".
Definition ghost : claims := Claims 7 "ghost" "ghost@x.com".
Definition token_of (c : claims) : option token :=
  Some (jwt_sign c "s3cret" 0).
Definition notes : incoming_file :=
  IncomingFile "notes.txt" "text/plain" [x68; x69] 1700000000000 42.
Definition notes_row : file_row :=
  FileRow 1 "1700000000000-42-notes.txt" "notes.txt" 2 "text/plain" 5.
Definition notes_path : string := "uploads/1/1700000000000-42-notes.txt".
Definition two_users : gmap Z user_row :=
  <[1 := UserRow "alice" "alice@x.com" "h1" 0]>
    (<[2 := UserRow "bob" "bob@x.com" "h2" 0]> ∅).
Definition empty : world := World (Database ∅ 0 ∅ 0) ∅ [].
(** Alice and Bob are registered and Alice has uploaded [notes]. *)
Definition stocked : world :=
  World (Database two_users 2 (<[1 := notes_row]> ∅) 1)
        (<[notes_path := File [x68; x69]]> (<["uploads/1" := Dir]> ∅)) [].
(** The same, with a directory where the artifact should be. *)
Definition blocked : world :=
  World (Database two_users 2 (<[1 := notes_row]> ∅) 1)
        (<[notes_path := Dir]> (<["uploads/1" := Dir]> ∅)) [].
End Sample.

(** ** Login *)

Definition select_user_by_email (d : database) (email : string)
    : option (Z * user_row) :=
  head (filter (fun kv : Z * user_row => u_email kv.2 = email)
               (map_to_list (users d))).

Definition sql_get_user_by_email (email : string)
    : M (option (Z * user_row)) :=
  emit (Sql "SELECT * FROM users WHERE email = ?") ;;
  d <- get_db ;;
  ret (select_user_by_email d email).

Section Login.

(** [bcrypt.compare(password, hash)] *)
Context (cfg : config) (bcrypt_compare : string -> string -> bool).

(** [router.post('/login')] *)
Definition login_body (email password : option string) (now : Z)
    : M response :=
  if falsy email || falsy password
  then ret (Json 400 (error_body "Email and password are required"))
  else
    let email := default "" email in
    let password := default "" password in
    found <- sql_get_user_by_email email ;;
    match found with
    | None => ret (Json 401 (error_body "Invalid credentials"))
    | Some (id, user) =>
        let isValidPassword := bcrypt_compare password (u_password user) in
        if negb isValidPassword
        then ret (Json 401 (error_body "Invalid credentials"))
        else
          let token := jwt_sign (Claims id (u_username user) (u_email user))
                                (JWT_SECRET cfg) now in
          ret (Json 200 (JObj [
            ("message", JStr "Login successful");
            ("token", JTok token);
            ("user", JObj [("id", JNum id);
                           ("username", JStr (u_username user));
                           ("email", JStr (u_email user))])]))
    end.

Definition login (email password : option string) (now : Z)
    : world -> response * world :=
  handle "Login error:" "Server error" (login_body email password now).

End Login.

(** ** The address the server announces

    The callback of [app.listen] walks [os.networkInterfaces()], interface
    by interface in the order of its keys, and keeps the address of the
    last entry that is IPv4 and not internal. *)

Record iface := Iface {
  family : string;
  internal : bool;
  address : string
}.

Definition external_ipv4 (i : iface) : bool :=
  bool_decide (family i = "IPv4") && negb (internal i).

Definition localIP (networkInterfaces : list (string * list iface))
    : string :=
  fold_left
    (fun localIP entry =>
       fold_left
         (fun localIP i => if external_ipv4 i then address i else localIP)
         entry.2 localIP)
    networkInterfaces "localhost".

(** ** Invariants of the stores *)

(** No two user rows share an email or a username. *)
Definition users_unique (d : database) : Prop :=
  forall k1 k2 r1 r2,
    users d !! k1 = Some r1 -> users d !! k2 = Some r2 ->
    u_email r1 = u_email r2 \/ u_username r1 = u_username r2 ->
    k1 = k2.

(** Every file record belongs to a user that has a row. *)
Definition files_have_owner (d : database) : Prop :=
  forall k r, files d !! k = Some r -> is_Some (users d !! f_user_id r).

(** No rowid of the catalog is beyond the AUTOINCREMENT counter. *)
Definition rowids_bounded (d : database) : Prop :=
  forall k r, files d !! k = Some r -> k <= files_seq d.

(** The character [c] occurs in [s]. *)
Fixpoint has_char (c : Ascii.ascii) (s : string) : Prop :=
  match s with
  | EmptyString => False
  | String a rest => a = c \/ has_char c rest
  end.

(** The answer to a successful register or login. *)
Definition registered_response (cfg : config) (id : Z) (u e : string)
    (now : Z) : response :=
  Json 201 (JObj [
    ("message", JStr "User registered successfully");
    ("token", JTok (jwt_sign (Claims id u e) (JWT_SECRET cfg) now));
    ("user", JObj [("id", JNum id); ("username", JStr u);
                   ("email", JStr e)])]).

Definition logged_in_response (cfg : config) (id : Z) (r : user_row)
    (now : Z) : response :=
  Json 200 (JObj [
    ("message", JStr "Login successful");
    ("token", JTok (jwt_sign (Claims id (u_username r) (u_email r))
                             (JWT_SECRET cfg) now));
    ("user", JObj [("id", JNum id); ("username", JStr (u_username r));
                   ("email", JStr (u_email r))])]).

(** More data for the examples. *)
Module Demo.
Definition compare (password hashed : string) : bool :=
  bool_decide (hashed = Sample.hash password "s1").
Definition alice_row : user_row := UserRow "alice" "alice@x.com" "h1" 0.
(** A second [notes.txt], stored in the same millisecond with the same
    random draw as [Sample.notes]. *)
Definition notes_again : incoming_file :=
  IncomingFile "notes.txt" "text/plain" [x79; x6f] 1700000000000 42.
Definition lo : iface := Iface "IPv4" true "127.0.0.1".
Definition lo6 : iface := Iface "IPv6" true "::1".
Definition eth : iface := Iface "IPv4" false "192.168.1.20".
Definition wlan : iface := Iface "IPv4" false "10.0.0.7".
End Demo.

(** * Properties *)

(** ** Rowids *)

Lemma foldr_max_ge (l : list Z) (k : Z) : k ∈ l -> k <= foldr Z.max 0 l.
Proof.
  induction l as [|x l IH]; intros Hin.
  - by apply not_elem_of_nil in Hin.
  - apply elem_of_cons in Hin as [->|Hin]; simpl.
    + lia.
    + specialize (IH Hin). lia.
Qed.

Lemma max_rowid_ge {A} (t : gmap Z A) (k : Z) (x : A) :
  t !! k = Some x -> k <= max_rowid t.
Proof.
  intros Hk. apply foldr_max_ge.
  apply list_elem_of_fmap. exists (k, x). split; [done|].
  by apply elem_of_map_to_list.
Qed.

Lemma next_rowid_fresh {A} (seq : Z) (t : gmap Z A) :
  t !! next_rowid seq t = None.
Proof.
  destruct (t !! next_rowid seq t) as [x|] eqn:Hk; [|done].
  apply max_rowid_ge in Hk. unfold next_rowid in Hk. lia.
Qed.

(** ** The uniqueness check of [register] *)

Lemma select_user_None (d : database) (email username : string) :
  select_user_by_email_or_username d email username = None <->
  ~ user_conflict d email username.
Proof.
  unfold select_user_by_email_or_username, user_conflict.
  rewrite head_None. split.
  - intros Hnil (k & r & Hk & Hm).
    eapply (filter_nil_not_elem_of _ _ (k, r)); [exact Hnil|exact Hm|].
    by apply elem_of_map_to_list.
  - intros Hno.
    destruct (filter _ _) as [|[k r] l] eqn:Hf; [done|].
    exfalso. apply Hno. exists k, r.
    assert (Hin : (k, r) ∈ filter
      (fun kv : Z * user_row =>
         u_email kv.2 = email \/ u_username kv.2 = username)
      (map_to_list (users d))) by (rewrite Hf; left).
    apply list_elem_of_filter in Hin as [Hm Hin].
    split; [by apply elem_of_map_to_list|exact Hm].
Qed.

Lemma select_user_Some (d : database) (email username : string) kv :
  select_user_by_email_or_username d email username = Some kv ->
  user_conflict d email username.
Proof.
  intros Hs.
  destruct (decide (user_conflict d email username)) as [|Hno]; [done|].
  apply select_user_None in Hno. congruence.
Qed.

(** ** Paths *)

Lemma string_app_assoc (a b c : string) : (a +:+ b) +:+ c = a +:+ b +:+ c.
Proof.
  induction a as [|x a IH]; [reflexivity|].
  change (String x ((a +:+ b) +:+ c) = String x (a +:+ b +:+ c)).
  by rewrite IH.
Qed.

Lemma path_join_nested (a b c : string) :
  path_join [path_join [a; b]; c] = path_join [a; b; c].
Proof.
  change (path_join [path_join [a; b]; c]) with ((a +:+ "/" +:+ b) +:+ "/" +:+ c).
  change (path_join [a; b; c]) with (a +:+ "/" +:+ b +:+ "/" +:+ c).
  by rewrite !string_app_assoc.
Qed.

(** ** Running a handler *)

Ltac run_request :=
  cbv beta delta
    [register me upload upload_route upload_handler list_files download
     delete_file rename authenticated handle
     register_body me_body upload_body list_body download_body delete_body
     rename_body res_download next_err error_middleware
     sql_get_user_by_email_or_username sql_insert_user sql_get_user_by_id
     sql_get_file sql_insert_file sql_update_original_name sql_delete_file
     sql_all_files existsSync unlinkSync mkdirSync writeFile
     bind ret throw attempt emit get_db put_db get_fs put_fs];
  cbn beta iota zeta delta
    [w_db w_fs w_trace users users_seq files files_seq fst snd negb].

Ltac step :=
  cbn beta iota zeta delta
    [w_db w_fs w_trace users users_seq files files_seq fst snd negb].

Lemma authenticated_ok secret now auth user route :
  authenticateToken secret now auth = inr user ->
  authenticated secret now auth route = route user.
Proof. intros H. unfold authenticated. by rewrite H. Qed.

Lemma select_file_owned_None (d : database) fileId uid :
  not_owned d fileId uid -> select_file_owned d fileId uid = None.
Proof.
  intros Hno. unfold select_file_owned.
  destruct (param_rowid fileId) as [k|] eqn:Hp; [|done].
  destruct (files d !! k) as [r|] eqn:Hk; [|done].
  destruct (decide (f_user_id r = uid)) as [Heq|]; [|done].
  by destruct (Hno k r Hp Hk).
Qed.

Lemma select_file_owned_Some (d : database) fileId uid k r :
  param_rowid fileId = Some k -> files d !! k = Some r -> f_user_id r = uid ->
  select_file_owned d fileId uid = Some (k, r).
Proof.
  intros Hp Hk Hu. unfold select_file_owned. rewrite Hp, Hk.
  by destruct (decide (f_user_id r = uid)).
Qed.

(** ** The current user *)

Section CurrentUser.

Context (cfg : config).

(** C10.  When the token is valid (right signature, not expired) and no
    user row has the identifier it embeds, [getCurrentUser] answers 404
    "User not found" and not the identity of the token; when a row has
    that identifier, the username, email and creation time of the answer
    are those of the row, whatever the token says. *)
Theorem me_reads_identity_from_store now auth user w :
  authenticateToken (JWT_SECRET cfg) now auth = inr user ->
  (users (w_db w) !! tok_id user = None ->
   (me cfg now auth w).1 = Json 404 (error_body "User not found")) /\
  (forall u, users (w_db w) !! tok_id user = Some u ->
   (me cfg now auth w).1 =
     Json 200 (JObj [("id", JNum (tok_id user));
                     ("username", JStr (u_username u));
                     ("email", JStr (u_email u));
                     ("created_at", JNum (u_created_at u))])).
Proof.
  intros Hauth. unfold me. rewrite (authenticated_ok _ _ _ _ _ Hauth).
  split; [intros Hu|intros u Hu]; run_request; by rewrite Hu.
Qed.

End CurrentUser.

Lemma me_reads_identity_from_store_witness :
  authenticateToken (JWT_SECRET Sample.cfg) 1 (Sample.token_of Sample.ghost)
    = inr Sample.ghost /\
  (me Sample.cfg 1 (Sample.token_of Sample.ghost) Sample.stocked).1
    = Json 404 (error_body "User not found").
Proof.
  split; [reflexivity|].
  apply (me_reads_identity_from_store Sample.cfg 1
           (Sample.token_of Sample.ghost) Sample.ghost Sample.stocked);
    reflexivity.
Defined.

(** ** Ownership *)

Section Ownership.

Context (cfg : config).

(** C1, amended.  When the record of [fileId] is absent or belongs to
    another user, download and delete answer 404 "File not found"; so
    does rename when it is given a new name, and rename without one
    answers 400 "New name is required".  The answer is the same whether
    the record is absent or foreign, and neither store changes: a token
    of user A never reads, renames or deletes a file of user B. *)
Theorem unowned_file_is_hidden now auth user fileId newName w :
  authenticateToken (JWT_SECRET cfg) now auth = inr user ->
  not_owned (w_db w) fileId (tok_id user) ->
  ((download cfg now auth fileId w).1 = not_found /\
   stores_kept w (download cfg now auth fileId w)) /\
  ((delete_file cfg now auth fileId w).1 = not_found /\
   stores_kept w (delete_file cfg now auth fileId w)) /\
  ((rename cfg now auth fileId newName w).1 =
     (if falsy newName
      then Json 400 (error_body "New name is required")
      else not_found) /\
   stores_kept w (rename cfg now auth fileId newName w)).
Proof.
  intros Hauth Hno. apply select_file_owned_None in Hno.
  unfold download, delete_file, rename, stores_kept.
  rewrite !(authenticated_ok _ _ _ _ _ Hauth).
  repeat split; run_request; rewrite ?Hno; try done;
    by destruct (falsy newName); cbn; rewrite ?Hno.
Qed.

End Ownership.

Lemma unowned_file_is_hidden_witness :
  authenticateToken (JWT_SECRET Sample.cfg) 1 (Sample.token_of Sample.bob)
    = inr Sample.bob /\
  not_owned (w_db Sample.stocked) (ParamInt 1) (tok_id Sample.bob) /\
  (download Sample.cfg 1 (Sample.token_of Sample.bob) (ParamInt 1)
     Sample.stocked).1 = not_found.
Proof.
  assert (Hno : not_owned (w_db Sample.stocked) (ParamInt 1)
                  (tok_id Sample.bob)).
  { intros k r Hp Hk. injection Hp as <-. vm_compute in Hk.
    injection Hk as <-. discriminate. }
  split; [reflexivity|]. split; [exact Hno|].
  apply (unowned_file_is_hidden Sample.cfg 1 (Sample.token_of Sample.bob)
           Sample.bob (ParamInt 1) None Sample.stocked eq_refl Hno).
Defined.

(** C1 as stated fails: a rename that carries no new name is turned down
    with 400 before the catalog is read, so for a file the caller does not
    own the answer is not 404. *)
Lemma unowned_rename_without_name_is_400 : ~ unowned_always_404.
Proof.
  intros H.
  destruct (H Sample.cfg 1 (Sample.token_of Sample.bob) Sample.bob
              (ParamInt 1) None Sample.stocked) as (_ & _ & Hr).
  - reflexivity.
  - intros k r Hp Hk. injection Hp as <-. vm_compute in Hk.
    injection Hk as <-. discriminate.
  - vm_compute in Hr. discriminate.
Qed.

(** ** Delete *)

Section Delete.

Context (cfg : config).

(** C3, amended.  Delete of a file the caller owns: when the artifact is
    already absent the delete succeeds and the record is removed; when
    the artifact is a file it is unlinked and the record is removed;
    when unlinking fails the delete answers 500 and the record stays. *)
Theorem delete_owned_file now auth user fileId k r w :
  authenticateToken (JWT_SECRET cfg) now auth = inr user ->
  param_rowid fileId = Some k ->
  files (w_db w) !! k = Some r ->
  f_user_id r = tok_id user ->
  let after := delete_file cfg now auth fileId w in
  match w_fs w !! artifact_path cfg r with
  | None =>
      after.1 = deleted_ok /\
      files (w_db after.2) = delete k (files (w_db w)) /\
      w_fs after.2 = w_fs w
  | Some (File _) =>
      after.1 = deleted_ok /\
      files (w_db after.2) = delete k (files (w_db w)) /\
      w_fs after.2 = delete (artifact_path cfg r) (w_fs w)
  | Some Dir =>
      after.1 = Json 500 (error_body "Failed to delete file") /\
      stores_kept w after
  end.
Proof.
  intros Hauth Hp Hk Hu after. subst after.
  unfold delete_file. rewrite (authenticated_ok _ _ _ _ _ Hauth).
  replace (artifact_path cfg r) with (file_path cfg user r)
    by (unfold file_path, artifact_path; by rewrite Hu).
  run_request. rewrite (select_file_owned_Some _ _ _ _ _ Hp Hk Hu). step.
  unfold stores_kept, delete_file_row.
  destruct (w_fs w !! file_path cfg user r) as [[data|]|] eqn:Hfs; step;
    rewrite ?Hfs, ?Hp; step; try done.
Qed.

End Delete.

Lemma delete_owned_file_witness :
  authenticateToken (JWT_SECRET Sample.cfg) 1 (Sample.token_of Sample.alice)
    = inr Sample.alice /\
  files (w_db Sample.blocked) !! 1 = Some Sample.notes_row /\
  (delete_file Sample.cfg 1 (Sample.token_of Sample.alice) (ParamInt 1)
     Sample.blocked).1 = Json 500 (error_body "Failed to delete file").
Proof.
  split; [reflexivity|]. split; [reflexivity|].
  pose proof (delete_owned_file Sample.cfg 1 (Sample.token_of Sample.alice)
                Sample.alice (ParamInt 1) 1 Sample.notes_row Sample.blocked
                eq_refl eq_refl eq_refl eq_refl) as H.
  vm_compute in H. vm_compute. exact (proj1 H).
Defined.

(** C3 as stated fails: with a directory where the artifact should be,
    unlinking throws, the handler answers 500 and the record of the owned
    file is still in the catalog. *)
Lemma failed_unlink_keeps_record : ~ delete_always_removes_record.
Proof.
  intros H.
  specialize (H Sample.cfg 1 (Sample.token_of Sample.alice) Sample.alice
                (ParamInt 1) 1 Sample.notes_row Sample.blocked
                eq_refl eq_refl eq_refl eq_refl).
  vm_compute in H. discriminate.
Qed.

(** ** Rename *)

Section Rename.

Context (cfg : config).

(** C5.  Rename of an owned file with a non-empty new name answers 200
    and rewrites the display name of that record and nothing else: its
    stored name, size, owner, content type and upload time are kept,
    every other record is kept, and so are the users and the stored
    bytes.  A rename whose new name is missing or empty answers 400 and
    leaves the world as it was, trace included: it runs no SQL statement,
    hence no ownership lookup. *)
Theorem rename_changes_display_name_only now auth user fileId newName w :
  authenticateToken (JWT_SECRET cfg) now auth = inr user ->
  let after := rename cfg now auth fileId newName w in
  (falsy newName = true ->
   after = (Json 400 (error_body "New name is required"), w)) /\
  (forall name k r,
     newName = Some name -> name <> "" ->
     param_rowid fileId = Some k ->
     files (w_db w) !! k = Some r ->
     f_user_id r = tok_id user ->
     after.1 = renamed_ok name /\
     w_fs after.2 = w_fs w /\
     users (w_db after.2) = users (w_db w) /\
     exists r',
       files (w_db after.2) = <[k := r']> (files (w_db w)) /\
       f_original_name r' = name /\
       f_filename r' = f_filename r /\
       f_size r' = f_size r /\
       f_user_id r' = f_user_id r /\
       f_mimetype r' = f_mimetype r /\
       f_upload_date r' = f_upload_date r).
Proof.
  intros Hauth after. subst after.
  unfold rename. rewrite (authenticated_ok _ _ _ _ _ Hauth). split.
  - intros Hf. run_request. by rewrite Hf.
  - intros name k r -> Hne Hp Hk Hu. run_request.
    cbn [falsy]. rewrite bool_decide_eq_false_2 by done. step.
    rewrite (select_file_owned_Some _ _ _ _ _ Hp Hk Hu). step.
    unfold update_original_name. rewrite Hp. step.
    repeat split.
    exists (set_original_name name r). repeat split.
    simpl. apply map_eq. intros j. rewrite lookup_alter, lookup_insert.
    destruct (decide (k = j)) as [<-|]; [by rewrite Hk|done].
Qed.

End Rename.

Lemma rename_changes_display_name_only_witness :
  authenticateToken (JWT_SECRET Sample.cfg) 1 (Sample.token_of Sample.alice)
    = inr Sample.alice /\
  (rename Sample.cfg 1 (Sample.token_of Sample.alice) (ParamInt 1) (Some "")
     Sample.stocked).1 = Json 400 (error_body "New name is required") /\
  (rename Sample.cfg 1 (Sample.token_of Sample.alice) (ParamInt 1)
     (Some "todo.txt") Sample.stocked).1 = renamed_ok "todo.txt".
Proof.
  split; [reflexivity|]. split.
  - pose proof (proj1 (rename_changes_display_name_only Sample.cfg 1
                  (Sample.token_of Sample.alice) Sample.alice (ParamInt 1)
                  (Some "") Sample.stocked eq_refl) eq_refl) as H.
    exact (f_equal fst H).
  - refine (proj1 (proj2 (rename_changes_display_name_only Sample.cfg 1
                  (Sample.token_of Sample.alice) Sample.alice (ParamInt 1)
                  (Some "todo.txt") Sample.stocked eq_refl)
                  "todo.txt" 1 Sample.notes_row eq_refl _ eq_refl eq_refl
                  eq_refl)).
    discriminate.
Defined.

(** ** List *)

#[local] Instance newer_first_total : Total newer_first.
Proof. intros a b. unfold newer_first. lia. Qed.

#[local] Instance newer_first_trans : Transitive newer_first.
Proof. intros a b c. unfold newer_first. lia. Qed.

Section List.

Context (cfg : config).

(** C9.  List answers with the rows of exactly the records whose owner
    is the caller, each once and none left out, newest upload first. *)
Theorem list_files_owned_newest_first now auth user w :
  authenticateToken (JWT_SECRET cfg) now auth = inr user ->
  exists rows,
    (list_files cfg now auth w).1 = Json 200 (JArr (file_json <$> rows)) /\
    (forall k r, (k, r) ∈ rows <->
                 files (w_db w) !! k = Some r /\ f_user_id r = tok_id user) /\
    NoDup rows /\
    rows ≡ₚ filter (fun kv : Z * file_row => f_user_id kv.2 = tok_id user)
                   (map_to_list (files (w_db w))) /\
    StronglySorted newer_first rows.
Proof.
  intros Hauth. exists (select_files_by_user (w_db w) (tok_id user)).
  unfold list_files. rewrite (authenticated_ok _ _ _ _ _ Hauth).
  split; [by run_request|].
  unfold select_files_by_user.
  split; [|split; [|split]].
  - intros k r. rewrite merge_sort_Permutation, list_elem_of_filter.
    rewrite elem_of_map_to_list. simpl. tauto.
  - rewrite merge_sort_Permutation.
    apply NoDup_filter, NoDup_map_to_list.
  - apply merge_sort_Permutation.
  - apply StronglySorted_merge_sort; apply _.
Qed.

End List.

Lemma list_files_owned_newest_first_witness :
  authenticateToken (JWT_SECRET Sample.cfg) 1 (Sample.token_of Sample.alice)
    = inr Sample.alice /\
  exists rows,
    (list_files Sample.cfg 1 (Sample.token_of Sample.alice) Sample.stocked).1
      = Json 200 (JArr (file_json <$> rows)) /\
    StronglySorted newer_first rows.
Proof.
  split; [reflexivity|].
  destruct (list_files_owned_newest_first Sample.cfg 1
              (Sample.token_of Sample.alice) Sample.alice Sample.stocked
              eq_refl) as (rows & Hr & _ & _ & _ & Hs).
  exists rows. split; [exact Hr|exact Hs].
Defined.

(** ** Register *)

Section Register.

Context (cfg : config) (hash : string -> string -> string).

(** C6, amended.  A password shorter than six characters, counted as
    [password.length] counts them, is turned down with 400 and the world
    is untouched; so is a missing or empty username, email or password.
    With a non-empty username and email and a password of six characters
    or more, [register] answers 400 "User already exists" and keeps the
    stores when some user holds the email or the username, and otherwise
    adds one user row, under a fresh identifier, and answers 201 with that
    identifier. *)
Theorem register_validates_then_creates
    username email password salt now w :
  let after := register cfg hash username email password salt now w in
  (forall p, password = Some p -> Z.of_nat (js_length p) < 6 ->
     status_of after.1 = Some 400 /\ after.2 = w) /\
  (falsy username = true \/ falsy email = true \/ falsy password = true ->
     after = (Json 400 (error_body "All fields are required"), w)) /\
  (forall u e p,
     username = Some u -> email = Some e -> password = Some p ->
     u <> "" -> e <> "" -> 6 <= Z.of_nat (js_length p) ->
     (user_conflict (w_db w) e u ->
        after.1 = Json 400 (error_body "User already exists") /\
        stores_kept w after) /\
     (~ user_conflict (w_db w) e u ->
        let id := next_rowid (users_seq (w_db w)) (users (w_db w)) in
        after.1 =
          Json 201 (JObj [
            ("message", JStr "User registered successfully");
            ("token", JTok (jwt_sign (Claims id u e) (JWT_SECRET cfg) now));
            ("user", JObj [("id", JNum id); ("username", JStr u);
                           ("email", JStr e)])]) /\
        users (w_db w) !! id = None /\
        users (w_db after.2) =
          <[id := UserRow u e (hash p salt) now]> (users (w_db w)) /\
        files (w_db after.2) = files (w_db w) /\
        w_fs after.2 = w_fs w)).
Proof.
  intros after. subst after. unfold register. split; [|split].
  - intros p -> Hlen. run_request.
    destruct (falsy username || falsy email || falsy (Some p)); [done|].
    change (default "" (Some p)) with p.
    by destruct (decide (Z.of_nat (js_length p) < 6)).
  - intros Hf. run_request.
    assert (falsy username || falsy email || falsy password = true) as ->.
    { destruct Hf as [-> | [-> | ->]]; [done| |].
      - by destruct (falsy username).
      - by destruct (falsy username), (falsy email). }
    done.
  - intros u e p -> -> -> Hu He Hlen. run_request.
    assert (Hp : p <> "") by (intros ->; simpl in Hlen; lia).
    cbn [falsy]. rewrite !bool_decide_eq_false_2 by done.
    cbn [orb].
    change (default "" (Some u)) with u.
    change (default "" (Some e)) with e.
    change (default "" (Some p)) with p.
    destruct (decide (Z.of_nat (js_length p) < 6)); [lia|].
    step. split.
    + intros Hc.
      destruct (select_user_by_email_or_username (w_db w) e u) eqn:Hs.
      * by step.
      * apply select_user_None in Hs. by destruct Hs.
    + intros Hno. apply select_user_None in Hno.
      rewrite Hno. step. rewrite Hno. step.
      repeat split. apply next_rowid_fresh.
Qed.

End Register.

Lemma register_validates_then_creates_witness :
  Z.of_nat (js_length "12345") < 6 /\
  status_of (register Sample.cfg Sample.hash (Some "carol")
               (Some "carol@x.com") (Some "12345") "salt" 9
               Sample.stocked).1 = Some 400 /\
  (register Sample.cfg Sample.hash (Some "dave") (Some "alice@x.com")
     (Some "secret1") "salt" 9 Sample.stocked).1
    = Json 400 (error_body "User already exists") /\
  Z.of_nat (js_length "pässw") < 6 /\
  status_of (register Sample.cfg Sample.hash (Some "carol")
               (Some "carol@x.com") (Some "pässw") "salt" 9
               Sample.stocked).1 = Some 400 /\
  (register Sample.cfg Sample.hash (Some "carol") (Some "carol@x.com")
     None "salt" 9 Sample.stocked).1
    = Json 400 (error_body "All fields are required").
Proof.
  split; [reflexivity|]. split; [|split; [|split; [reflexivity|split]]].
  - refine (proj1 (proj1 (register_validates_then_creates Sample.cfg
                     Sample.hash (Some "carol") (Some "carol@x.com")
                     (Some "12345") "salt" 9 Sample.stocked)
                     "12345" eq_refl _)).
    reflexivity.
  - refine (proj1 (proj1 (proj2 (proj2 (register_validates_then_creates
                     Sample.cfg Sample.hash (Some "dave")
                     (Some "alice@x.com") (Some "secret1") "salt" 9
                     Sample.stocked))
                     "dave" "alice@x.com" "secret1" eq_refl eq_refl eq_refl
                     _ _ _) _)).
    + discriminate.
    + discriminate.
    + vm_compute. discriminate.
    + exists 1, (UserRow "alice" "alice@x.com" "h1" 0).
      split; [reflexivity|left; reflexivity].
  - refine (proj1 (proj1 (register_validates_then_creates Sample.cfg
                     Sample.hash (Some "carol") (Some "carol@x.com")
                     (Some "pässw") "salt" 9 Sample.stocked)
                     "pässw" eq_refl _)).
    reflexivity.
  - exact (f_equal fst
             (proj1 (proj2 (register_validates_then_creates Sample.cfg
                Sample.hash (Some "carol") (Some "carol@x.com") None
                "salt" 9 Sample.stocked))
                (or_intror (or_intror eq_refl)))).
Defined.

(** C6 as stated fails: with an empty username, a fresh email and a
    password of seven characters no user shares the username or the email,
    yet [register] answers 400 "All fields are required" and adds no
    user. *)
Lemma register_empty_username_creates_nothing :
  ~ register_creates_iff_no_conflict.
Proof.
  intros H.
  destruct (H Sample.cfg Sample.hash "" "carol@x.com" "secret1" "salt" 9
              Sample.empty) as [Hcreate _].
  - vm_compute. discriminate.
  - apply Hcreate; [|reflexivity].
    intros (k & r & Hk & _).
    change ((∅ : gmap Z user_row) !! k = Some r) in Hk.
    by rewrite lookup_empty in Hk.
Qed.

(** ** The upload engine *)

Ltac run_storage :=
  cbv beta zeta delta
    [handleFile destination existsSync unlinkSync mkdirSync writeFile
     bind ret throw attempt emit get_db put_db get_fs put_fs];
  step.

Lemma path_join_inj (a b x y : string) :
  path_join [a; b; x] = path_join [a; b; y] -> x = y.
Proof.
  change (path_join [a; b; x]) with (a +:+ "/" +:+ b +:+ "/" +:+ x).
  change (path_join [a; b; y]) with (a +:+ "/" +:+ b +:+ "/" +:+ y).
  intros H. apply (inj (String.app a)) in H.
  apply (inj (String.app "/")) in H. apply (inj (String.app b)) in H.
  by apply (inj (String.app "/")) in H.
Qed.

Lemma unlinkSync_db p w : w_db (unlinkSync p w).2 = w_db w.
Proof. run_storage. by destruct (w_fs w !! p) as [[|]|]. Qed.

Lemma removeUploadedFiles_db uploaded w :
  w_db (removeUploadedFiles uploaded w).2 = w_db w /\
  (removeUploadedFiles uploaded w).1 = Returned tt.
Proof.
  revert w. induction uploaded as [|f rest IH]; intros w; [done|].
  cbn [removeUploadedFiles]. unfold bind, attempt.
  pose proof (unlinkSync_db (mf_path f) w) as Hu.
  destruct (unlinkSync (mf_path f) w) as [[[]|e] w']; cbn [snd] in Hu;
    destruct (IH w') as [Hdb Hr]; rewrite <- Hu; done.
Qed.

Lemma handleFile_db cfg user part w :
  w_db (handleFile cfg user part w).2 = w_db w.
Proof.
  run_storage.
  remember (path_join [uploadsDir cfg; pretty (tok_id user)]) as dir.
  destruct (w_fs w !! dir) as [[|]|] eqn:Hd; step; rewrite ?Hd; step;
    rewrite ?lookup_insert_eq; try done;
    remember (path_join [dir; filename part]) as path.
  - by destruct (w_fs w !! path) as [[|]|].
  - by destruct (<[dir:=Dir]> (w_fs w) !! path) as [[|]|].
Qed.

Lemma handleFile_Returned cfg user part w f w1 :
  handleFile cfg user part w = (Returned f, w1) ->
  let path := path_join [uploadsDir cfg; pretty (tok_id user); filename part] in
  let data := take (Z.to_nat (fileSize cfg)) (content part) in
  f = MulterFile (filename part) (originalname part) (Z.of_nat (length data))
        (in_mimetype part) path /\
  w_fs w1 !! path = Some (File data) /\
  (forall q d, q <> path ->
     w_fs w !! q = Some (File d) -> w_fs w1 !! q = Some (File d)).
Proof.
  intros H. cbv zeta. rewrite <- path_join_nested.
  revert H. run_storage.
  remember (path_join [uploadsDir cfg; pretty (tok_id user)]) as dir.
  remember (path_join [dir; filename part]) as path.
  destruct (w_fs w !! dir) as [[|]|] eqn:Hd; step; rewrite ?Hd; step;
    rewrite ?lookup_insert_eq; try done; rewrite <- ?Heqpath.
  - destruct (w_fs w !! path) as [[|]|] eqn:Hp; step; try discriminate;
      intros [= <- <-]; (split; [done|]); cbn [w_fs];
      (split; [by rewrite lookup_insert_eq|]);
      intros q d Hq Hf; by rewrite lookup_insert_ne.
  - destruct (<[dir:=Dir]> (w_fs w) !! path) as [[|]|] eqn:Hp; step;
      try discriminate;
      intros [= <- <-]; (split; [done|]); cbn [w_fs];
      (split; [by rewrite lookup_insert_eq|]);
      intros q d Hq Hf; rewrite !lookup_insert_ne; try done;
      intros ->; congruence.
Qed.

Lemma removeUploadedFiles_not_accepted {A} uploaded (err : app_error)
    (files : A) w w1 :
  bind (removeUploadedFiles uploaded) (fun _ => ret (inl err)) w
    <> (Returned (inr files), w1).
Proof.
  unfold bind, ret.
  by destruct (removeUploadedFiles uploaded w) as [[[]|e] w'].
Qed.

Lemma upload_array_db cfg user parts :
  forall n uploaded w,
    w_db (upload_array cfg user n parts uploaded w).2 = w_db w.
Proof.
  induction parts as [|part rest IH]; intros n uploaded w; [done|].
  cbn [upload_array]. destruct n as [|n].
  - unfold bind, ret.
    pose proof (removeUploadedFiles_db uploaded w) as [Hdb _].
    by destruct (removeUploadedFiles uploaded w) as [[[]|e] w'].
  - unfold bind at 1. unfold attempt.
    pose proof (handleFile_db cfg user part w) as Hh.
    destruct (handleFile cfg user part w) as [[f|e] w']; cbn [snd] in Hh.
    + destruct (decide (fileSize cfg < Z.of_nat (length (content part)))).
      * unfold bind, ret.
        pose proof (removeUploadedFiles_db (uploaded ++ [f]) w') as [Hdb _].
        destruct (removeUploadedFiles (uploaded ++ [f]) w') as [[[]|e] w2];
          cbn [snd] in *; congruence.
      * rewrite IH. exact Hh.
    + unfold bind, ret.
      pose proof (removeUploadedFiles_db uploaded w') as [Hdb _].
      destruct (removeUploadedFiles uploaded w') as [[[]|e'] w2];
        cbn [snd] in *; congruence.
Qed.

(** What an accepted request left behind: every part was stored whole, in
    order, and a stored part is on disk with its own bytes unless a later
    part of the request took the same stored name. *)
Lemma upload_array_inr cfg user parts :
  forall n uploaded w files w1,
    upload_array cfg user n parts uploaded w = (Returned (inr files), w1) ->
    files = (uploaded ++ (stored_file cfg user <$> parts))%list /\
    (length parts <= n)%nat /\
    Forall (fun part => Z.of_nat (length (content part)) <= fileSize cfg)
           parts /\
    (forall q d, w_fs w !! q = Some (File d) ->
       (forall part, part ∈ parts ->
                     mf_path (stored_file cfg user part) <> q) ->
       w_fs w1 !! q = Some (File d)) /\
    (forall q d, w_fs w !! q = Some (File d) ->
       exists d', w_fs w1 !! q = Some (File d')) /\
    (forall i part, parts !! i = Some part ->
       (forall j later, (i < j)%nat -> parts !! j = Some later ->
                        filename later <> filename part) ->
       w_fs w1 !! mf_path (stored_file cfg user part)
         = Some (File (content part))) /\
    (forall part, part ∈ parts ->
       exists d, w_fs w1 !! mf_path (stored_file cfg user part)
                 = Some (File d)).
Proof.
  induction parts as [|part rest IH]; intros n uploaded w files w1 H.
  - cbn in H. injection H as <- <-. rewrite app_nil_r.
    repeat split; try done; try (cbn; lia).
    + intros q d Hq. by exists d.
    + intros part Hin. by apply elem_of_nil in Hin.
  - cbn [upload_array] in H. destruct n as [|n].
    { by apply removeUploadedFiles_not_accepted in H. }
    unfold bind at 1 in H. unfold attempt in H.
    destruct (handleFile cfg user part w) as [[f|e] w'] eqn:Hh;
      [|by apply removeUploadedFiles_not_accepted in H].
    destruct (decide (fileSize cfg < Z.of_nat (length (content part))))
      as [|Hsize]; [by apply removeUploadedFiles_not_accepted in H|].
    apply handleFile_Returned in Hh as (Hf & Hnew & Hframe).
    rewrite take_ge in Hf, Hnew by lia.
    change (f = stored_file cfg user part) in Hf. subst f.
    change (w_fs w' !! mf_path (stored_file cfg user part)
            = Some (File (content part))) in Hnew.
    apply IH in H as (Hfiles & Hlen & Hall & HF1 & HF2 & HC & HE).
    split; [by rewrite Hfiles, <- app_assoc|].
    split; [cbn; lia|].
    split; [constructor; [lia|done]|].
    split; [|split; [|split]].
    + intros q d Hq Hne. apply HF1.
      * apply Hframe; [|done]. intros ->. eapply Hne; [left|done].
      * intros p Hp. apply Hne. by right.
    + intros q d Hq.
      destruct (decide (q = mf_path (stored_file cfg user part))) as [->|Hne].
      * by eapply HF2.
      * eapply HF2. by apply Hframe.
    + intros [|i] p Hp Hlater.
      * injection Hp as ->. apply HF1; [done|].
        intros later Hin Heq. apply list_elem_of_lookup in Hin as [j Hj].
        apply (Hlater (S j) later); [lia|done|].
        by apply path_join_inj in Heq.
      * apply (HC i p Hp). intros j later Hij Hj.
        apply (Hlater (S j) later); [lia|done].
    + intros p Hin. apply elem_of_cons in Hin as [->|Hin].
      * by eapply HF2.
      * by apply HE.
Qed.

(** ** The upload handler *)

Lemma upload_loop_ok user now fl :
  forall acc w u,
    users (w_db w) !! tok_id user = Some u ->
    exists ids w2,
      upload_loop user now fl acc w
        = (Returned (acc ++ zip_with uploaded_json ids fl)%list, w2) /\
      length ids = length fl /\
      w_fs w2 = w_fs w /\
      users (w_db w2) = users (w_db w) /\
      (forall k r, files (w_db w) !! k = Some r ->
                   files (w_db w2) !! k = Some r) /\
      (forall i id f, ids !! i = Some id -> fl !! i = Some f ->
                      files (w_db w2) !! id = Some (row_of user now f)).
Proof.
  induction fl as [|f rest IH]; intros acc w u Hu.
  - exists [], w. cbn. rewrite app_nil_r. repeat split; done.
  - cbn [upload_loop]. unfold bind at 1.
    cbv beta delta [sql_insert_file bind emit get_db put_db ret throw].
    step. rewrite Hu. step.
    set (k := next_rowid (files_seq (w_db w)) (files (w_db w))).
    match goal with
    | |- context [upload_loop user now rest ?a ?w'] =>
        destruct (IH a w' u Hu) as (ids & w2 & Hrun & Hlen & Hfs & Hus & Hold & Hnew)
    end.
    exists (k :: ids), w2. rewrite Hrun.
    cbn [w_db w_fs files users] in *.
    split; [by rewrite <- app_assoc|].
    split; [cbn; lia|]. split; [done|]. split; [done|]. split.
    + intros k' r Hk'. apply Hold. rewrite lookup_insert_ne; [done|].
      intros <-. subst k. by rewrite next_rowid_fresh in Hk'.
    + intros [|i] id f' Hid Hf'.
      * injection Hid as <-. injection Hf' as <-.
        apply Hold. by rewrite lookup_insert_eq.
      * by apply (Hnew i).
Qed.

Lemma upload_loop_throw user now f rest acc w :
  users (w_db w) !! tok_id user = None ->
  exists e w2,
    upload_loop user now (f :: rest) acc w = (Thrown e, w2) /\
    w_db w2 = w_db w /\ w_fs w2 = w_fs w.
Proof.
  intros Hu. cbn [upload_loop]. unfold bind at 1.
  cbv beta delta [sql_insert_file bind emit get_db put_db ret throw].
  step. rewrite Hu. step. by eexists _, _.
Qed.

(** An upload that answers 201 went through the engine with every part
    stored, and the caller has a user row. *)
Lemma upload_route_201 cfg user parts now w :
  status_of (upload_route cfg user (Some parts) now w).1 = Some 201 ->
  exists w1 u,
    upload_array cfg user 10 parts [] w
      = (Returned (inr (stored_file cfg user <$> parts)), w1) /\
    parts <> [] /\
    users (w_db w) !! tok_id user = Some u.
Proof.
  unfold upload_route.
  pose proof (upload_array_db cfg user parts 10 [] w) as Hdb.
  destruct (upload_array cfg user 10 parts [] w) as [[[err|fl]|e] w1] eqn:Hup;
    cbn [snd] in Hdb; [done| |done].
  apply upload_array_inr in Hup as Hshape.
  destruct Hshape as (-> & _). cbn [app] in *.
  unfold upload_handler, handle, upload_body.
  destruct parts as [|part rest]; [done|]. cbn [fmap list_fmap].
  destruct (users (w_db w) !! tok_id user) as [u|] eqn:Hu.
  - intros _. by exists w1, u.
  - unfold bind. rewrite <- Hdb in Hu.
    destruct (upload_loop_throw user now (stored_file cfg user part)
                (stored_file cfg user <$> rest) [] w1 Hu)
      as (e & w2 & Hrun & _).
    change (list_fmap _ _ (stored_file cfg user) rest)
      with (stored_file cfg user <$> rest).
    rewrite Hrun. done.
Qed.

Lemma upload_body_nonempty user fl now :
  fl <> [] ->
  upload_body user (Some fl) now
    = bind (upload_loop user now fl [])
        (fun uploadedFiles =>
           ret (Json 201 (JObj [("message", JStr "Files uploaded successfully");
                                ("files", JArr uploadedFiles)]))).
Proof. by destruct fl. Qed.

Lemma upload_route_accepted cfg user parts now w w1 u :
  upload_array cfg user 10 parts [] w
    = (Returned (inr (stored_file cfg user <$> parts)), w1) ->
  parts <> [] ->
  users (w_db w) !! tok_id user = Some u ->
  exists ids w2,
    upload_route cfg user (Some parts) now w
      = (uploaded_response ids (stored_file cfg user <$> parts), w2) /\
    length ids = length parts /\
    w_fs w2 = w_fs w1 /\
    users (w_db w2) = users (w_db w) /\
    (forall k r, files (w_db w) !! k = Some r ->
                 files (w_db w2) !! k = Some r) /\
    (forall i id part, ids !! i = Some id -> parts !! i = Some part ->
       files (w_db w2) !! id
         = Some (row_of user now (stored_file cfg user part))).
Proof.
  intros Hup Hne Hu.
  pose proof (upload_array_db cfg user parts 10 [] w) as Hdb.
  rewrite Hup in Hdb. cbn [snd] in Hdb.
  unfold upload_route. rewrite Hup.
  unfold upload_handler, handle.
  rewrite upload_body_nonempty by (by destruct parts).
  rewrite <- Hdb in Hu.
  destruct (upload_loop_ok user now (stored_file cfg user <$> parts) [] w1 u Hu)
    as (ids & w2 & Hrun & Hlen & Hfs & Hus & Hold & Hnew).
  exists ids, w2. unfold bind, ret. rewrite Hrun. cbn [app].
  split; [done|]. rewrite length_fmap in Hlen. rewrite Hdb in *.
  repeat split; try done.
  intros i id part Hid Hpart. apply (Hnew i); [done|].
  by rewrite list_lookup_fmap, Hpart.
Qed.

Lemma download_owned cfg now auth user fileId k r w data :
  authenticateToken (JWT_SECRET cfg) now auth = inr user ->
  param_rowid fileId = Some k ->
  files (w_db w) !! k = Some r ->
  f_user_id r = tok_id user ->
  w_fs w !! artifact_path cfg r = Some (File data) ->
  (download cfg now auth fileId w).1 = Attachment (f_original_name r) data.
Proof.
  intros Hauth Hp Hk Hu.
  unfold download. rewrite (authenticated_ok _ _ _ _ _ Hauth).
  replace (artifact_path cfg r) with (file_path cfg user r)
    by (unfold file_path, artifact_path; by rewrite Hu).
  run_request. intros Hfs.
  rewrite (select_file_owned_Some _ _ _ _ _ Hp Hk Hu). step.
  rewrite Hfs. step. by rewrite Hfs.
Qed.


(** ** Upload *)

Section Upload.

Context (cfg : config).

(** C7, amended.  When an upload is accepted, the answer lists one
    identifier per part, in order, and a download of such an identifier
    with the same token, right after, is an attachment with the bytes of
    that part under its original name, for every part whose stored name
    no later part of the same request was given.  A request with one file
    meets that for free. *)
Theorem upload_then_download now now' auth user parts w :
  authenticateToken (JWT_SECRET cfg) now auth = inr user ->
  authenticateToken (JWT_SECRET cfg) now' auth = inr user ->
  let after := upload cfg now auth (Some parts) w in
  status_of after.1 = Some 201 ->
  exists ids,
    after.1 = uploaded_response ids (stored_file cfg user <$> parts) /\
    length ids = length parts /\
    forall i id part,
      ids !! i = Some id -> parts !! i = Some part ->
      (forall j later, (i < j)%nat -> parts !! j = Some later ->
                       filename later <> filename part) ->
      (download cfg now' auth (ParamInt id) after.2).1
        = Attachment (originalname part) (content part).
Proof.
  intros Hauth Hauth' after. subst after.
  unfold upload. rewrite (authenticated_ok _ _ _ _ _ Hauth).
  intros H201.
  destruct (upload_route_201 _ _ _ _ _ H201) as (w1 & u & Hup & Hne & Hu).
  destruct (upload_route_accepted _ _ _ now _ _ _ Hup Hne Hu)
    as (ids & w2 & Hrun & Hlen & Hfs & _ & _ & Hnew).
  rewrite Hrun. cbn [fst snd]. exists ids. split; [done|]. split; [done|].
  intros i id part Hid Hpart Hlater.
  apply upload_array_inr in Hup as (_ & _ & _ & _ & _ & HC & _).
  apply (download_owned cfg now' auth user (ParamInt id) id
           (row_of user now (stored_file cfg user part)));
    [done|done|by apply (Hnew i)|done|].
  rewrite Hfs. by apply (HC i).
Qed.

(** C8.  The size limit of a part is 10 MiB unless the environment sets
    another one; an upload that is accepted has at most 10 parts, none
    longer than the limit; an upload without files answers 400 "No files
    uploaded" and changes nothing; and an upload that is not accepted
    leaves the database as it was. *)
Theorem upload_limits now auth user parts w :
  authenticateToken (JWT_SECRET cfg) now auth = inr user ->
  (MAX_FILE_SIZE cfg = None -> fileSize cfg = 10 * 1024 * 1024) /\
  (forall n, MAX_FILE_SIZE cfg = Some n -> n <> 0 -> fileSize cfg = n) /\
  (status_of (upload cfg now auth (Some parts) w).1 = Some 201 ->
     (length parts <= 10)%nat /\
     Forall (fun part => Z.of_nat (length (content part)) <= fileSize cfg)
            parts) /\
  upload cfg now auth (Some []) w
    = (Json 400 (error_body "No files uploaded"), w) /\
  upload cfg now auth None w
    = (Json 400 (error_body "No files uploaded"), w) /\
  (status_of (upload cfg now auth (Some parts) w).1 <> Some 201 ->
     w_db (upload cfg now auth (Some parts) w).2 = w_db w).
Proof.
  intros Hauth. unfold upload. rewrite !(authenticated_ok _ _ _ _ _ Hauth).
  split; [|split; [|split; [|split; [|split]]]].
  - intros Hm. unfold fileSize. by rewrite Hm.
  - intros n Hm Hn. unfold fileSize. rewrite Hm.
    by destruct (decide (n = 0)).
  - intros H201.
    destruct (upload_route_201 _ _ _ _ _ H201) as (w1 & u & Hup & _).
    by apply upload_array_inr in Hup as (_ & Hlen & Hall & _).
  - done.
  - done.
  - intros Hnot.
    destruct (users (w_db w) !! tok_id user) as [u|] eqn:Hu.
    + revert Hnot. unfold upload_route.
      pose proof (upload_array_db cfg user parts 10 [] w) as Hdb.
      destruct (upload_array cfg user 10 parts [] w)
        as [[[err|fl]|e] w1] eqn:Hup; cbn [snd] in Hdb; [done| |done].
      destruct parts as [|part rest].
      { cbn in Hup. by injection Hup as <- <-. }
      apply upload_array_inr in Hup as Hshape.
      destruct Hshape as (-> & _). cbn [app] in Hup.
      destruct (upload_route_accepted _ _ _ now _ _ _ Hup
                  ltac:(done) Hu) as (ids & w2 & Hrun & _).
      unfold upload_route in Hrun. rewrite Hup in Hrun.
      cbn [app]. rewrite Hrun. intros Hnot. by destruct Hnot.
    + clear Hnot. unfold upload_route.
      pose proof (upload_array_db cfg user parts 10 [] w) as Hdb.
      destruct (upload_array cfg user 10 parts [] w)
        as [[[err|fl]|e] w1] eqn:Hup; cbn [snd] in Hdb; [done| |done].
      destruct fl as [|f fl]; [done|].
      unfold upload_handler, handle.
      rewrite upload_body_nonempty by done.
      rewrite <- Hdb in Hu.
      destruct (upload_loop_throw user now f fl [] w1 Hu)
        as (e & w2 & Hrun & Hdb2 & _).
      unfold bind. rewrite Hrun. cbn [snd w_db]. congruence.
Qed.

End Upload.

Lemma upload_then_download_witness :
  let after := upload Sample.cfg 1 (Sample.token_of Sample.alice)
                 (Some [Sample.notes]) Sample.stocked in
  status_of after.1 = Some 201 /\
  (download Sample.cfg 2 (Sample.token_of Sample.alice) (ParamInt 2)
     after.2).1 = Attachment "notes.txt" [x68; x69].
Proof.
  cbv zeta. split; [reflexivity|].
  destruct (upload_then_download Sample.cfg 1 2
              (Sample.token_of Sample.alice) Sample.alice [Sample.notes]
              Sample.stocked eq_refl eq_refl eq_refl)
    as (ids & Hr & Hlen & Hd).
  destruct ids as [|id [|]]; try discriminate.
  vm_compute in Hr. injection Hr as <-.
  apply (Hd 0%nat 2 Sample.notes eq_refl eq_refl).
  intros [|j] later Hj Hl; [lia|discriminate].
Defined.

(** C7 as stated fails: two parts called [notes.txt] that are stored in
    the same millisecond with the same random draw get one stored name;
    the second overwrites the first on disk, both get a record, and the
    download of the first identifier sends the bytes of the second part. *)
Lemma colliding_parts_break_round_trip : ~ upload_round_trips.
Proof.
  intros H.
  specialize (H Sample.cfg 1 2 (Sample.token_of Sample.alice) Sample.alice
                [Sample.notes; Demo.notes_again] [2; 3] Sample.stocked
                eq_refl eq_refl eq_refl eq_refl 0%nat 2 Sample.notes
                eq_refl eq_refl).
  vm_compute in H. discriminate.
Qed.

Lemma upload_limits_witness :
  authenticateToken (JWT_SECRET Sample.cfg) 1 (Sample.token_of Sample.alice)
    = inr Sample.alice /\
  fileSize Sample.cfg = 10 * 1024 * 1024 /\
  upload Sample.cfg 1 (Sample.token_of Sample.alice) (Some []) Sample.stocked
    = (Json 400 (error_body "No files uploaded"), Sample.stocked).
Proof.
  split; [reflexivity|].
  destruct (upload_limits Sample.cfg 1 (Sample.token_of Sample.alice)
              Sample.alice [] Sample.stocked eq_refl)
    as (Hdefault & _ & _ & Hempty & _).
  split; [exact (Hdefault eq_refl)|exact Hempty].
Defined.

Section FailedUpload.

Context (cfg : config).


End FailedUpload.



Section StoredName.

Context (cfg : config).


End StoredName.



(** ** A session from start to end *)

(** Alice and Bob register; Alice uploads a file of 100 bytes and sees it
    in her list; Bob's token gets 404 for its identifier; Alice deletes it
    and her list is empty. *)
Example alice_and_bob :
  let tokA := Some (jwt_sign (Claims 1 "alice" "alice@x.com") "s3cret" 1) in
  let tokB := Some (jwt_sign (Claims 2 "bob" "bob@x.com") "s3cret" 2) in
  let notes := IncomingFile "notes.txt" "text/plain" (replicate 100 x61)
                 1700000000000 42 in
  let w1 := (register Sample.cfg Sample.hash (Some "alice")
               (Some "alice@x.com") (Some "secret1") "s1" 1 Sample.empty).2 in
  let w2 := (register Sample.cfg Sample.hash (Some "bob")
               (Some "bob@x.com") (Some "secret2") "s2" 2 w1).2 in
  let up := upload Sample.cfg 3 tokA (Some [notes]) w2 in
  let rm := delete_file Sample.cfg 6 tokA (ParamInt 1) up.2 in
  up.1 = uploaded_response [1] [stored_file Sample.cfg Sample.alice notes] /\
  mf_size (stored_file Sample.cfg Sample.alice notes) = 100 /\
  (list_files Sample.cfg 4 tokA up.2).1
    = Json 200 (JArr [file_json
                        (1, row_of Sample.alice 3
                              (stored_file Sample.cfg Sample.alice notes))]) /\
  (download Sample.cfg 5 tokB (ParamInt 1) up.2).1 = not_found /\
  rm.1 = deleted_ok /\
  (list_files Sample.cfg 7 tokA rm.2).1 = Json 200 (JArr []).
Proof. vm_compute. repeat split. Qed.

(** * Further properties of the routes *)

(** ** Register and login *)

Ltac run_login :=
  cbv beta zeta delta
    [login login_body handle sql_get_user_by_email
     bind ret throw emit get_db put_db];
  step.

Lemma select_user_by_email_Some d email kv :
  select_user_by_email d email = Some kv ->
  users d !! kv.1 = Some kv.2 /\ u_email kv.2 = email.
Proof.
  unfold select_user_by_email. intros Hh.
  assert (Hin : kv ∈ filter (fun kv : Z * user_row => u_email kv.2 = email)
                       (map_to_list (users d))).
  { destruct (filter _ _) as [|x l]; [done|]. injection Hh as ->. left. }
  apply list_elem_of_filter in Hin as [He Hin]. split; [|done].
  destruct kv as [k r]. by apply elem_of_map_to_list.
Qed.

Lemma select_user_by_email_None d email :
  select_user_by_email d email = None <->
  forall k r, users d !! k = Some r -> u_email r <> email.
Proof.
  unfold select_user_by_email. rewrite head_None. split.
  - intros Hnil k r Hk He.
    eapply (filter_nil_not_elem_of _ _ (k, r)); [exact Hnil|exact He|].
    by apply elem_of_map_to_list.
  - intros Hno. destruct (filter _ _) as [|[k r] l] eqn:Hf; [done|].
    assert (Hin : (k, r) ∈ filter
              (fun kv : Z * user_row => u_email kv.2 = email)
              (map_to_list (users d))) by (rewrite Hf; left).
    apply list_elem_of_filter in Hin as [He Hin].
    apply elem_of_map_to_list in Hin. by destruct (Hno k r).
Qed.

Lemma select_user_by_email_unique d email k r :
  users d !! k = Some r -> u_email r = email ->
  (forall k' r', users d !! k' = Some r' -> u_email r' = email -> k' = k) ->
  select_user_by_email d email = Some (k, r).
Proof.
  intros Hk He Huniq.
  destruct (select_user_by_email d email) as [[k' r']|] eqn:Hs.
  - apply select_user_by_email_Some in Hs as [Hk' He']. cbn in *.
    assert (k' = k) as -> by by eapply Huniq. congruence.
  - rewrite select_user_by_email_None in Hs. by destruct (Hs k r).
Qed.

(** What [register] does, case by case. *)
Lemma register_cases cfg hash username email password salt now w :
  let after := register cfg hash username email password salt now w in
  (status_of after.1 = Some 400 /\ w_db after.2 = w_db w /\
   w_fs after.2 = w_fs w) \/
  (exists u e p,
     username = Some u /\ email = Some e /\ password = Some p /\
     u <> "" /\ e <> "" /\
     ~ user_conflict (w_db w) e u /\
     let id := next_rowid (users_seq (w_db w)) (users (w_db w)) in
     after.1 = registered_response cfg id u e now /\
     w_db after.2 =
       Database (<[id := UserRow u e (hash p salt) now]> (users (w_db w)))
                id (files (w_db w)) (files_seq (w_db w)) /\
     w_fs after.2 = w_fs w).
Proof.
  cbv zeta. unfold register. run_request.
  destruct (falsy username || falsy email || falsy password) eqn:Hf.
  { by left. }
  apply orb_false_elim in Hf as [Hf Hp]. apply orb_false_elim in Hf as [Hu He].
  destruct username as [u|]; [|done]. destruct email as [e|]; [|done].
  destruct password as [p|]; [|done].
  cbn [falsy] in Hu, He. apply bool_decide_eq_false in Hu, He.
  change (default "" (Some u)) with u.
  change (default "" (Some e)) with e.
  change (default "" (Some p)) with p.
  destruct (decide (Z.of_nat (js_length p) < 6)); [by left|].
  step.
  destruct (select_user_by_email_or_username (w_db w) e u) eqn:Hs; step.
  { by left. }
  rewrite Hs. step. right. exists u, e, p.
  apply select_user_None in Hs. done.
Qed.

Section RegisterLogin.

Context (cfg : config) (hash : string -> string -> string)
        (compare : string -> string -> bool).

(** X1.  When no user row with the given email accepts the password,
    [login] answers 401 "Invalid credentials" and changes neither the
    database nor the disk: an unknown email and a wrong password look
    alike. *)
Theorem login_hides_the_cause e p now w :
  e <> "" -> p <> "" ->
  (forall k r, users (w_db w) !! k = Some r -> u_email r = e ->
               compare p (u_password r) = false) ->
  (login cfg compare (Some e) (Some p) now w).1
    = Json 401 (error_body "Invalid credentials") /\
  stores_kept w (login cfg compare (Some e) (Some p) now w).
Proof.
  intros He Hp Hbad. unfold stores_kept. run_login.
  cbn [falsy]. rewrite !bool_decide_eq_false_2 by done. cbn [orb].
  change (default "" (Some e)) with e. change (default "" (Some p)) with p.
  destruct (select_user_by_email (w_db w) e) as [[k r]|] eqn:Hs; step.
  - apply select_user_by_email_Some in Hs as [Hk Hr]. cbn in Hk, Hr.
    by rewrite (Hbad k r Hk Hr).
  - done.
Qed.

(** X2.  On a database whose emails are unique, [login] with the email of
    a row and a password that row accepts answers 200 with the
    identifier, username and email of that row, and the token embeds the
    same three. *)
Theorem login_answers_with_the_row e p now w k r :
  users_unique (w_db w) ->
  e <> "" -> p <> "" ->
  users (w_db w) !! k = Some r -> u_email r = e ->
  compare p (u_password r) = true ->
  login cfg compare (Some e) (Some p) now w
    = (logged_in_response cfg k r now,
       World (w_db w) (w_fs w)
             (w_trace w ++ [Sql "SELECT * FROM users WHERE email = ?"])).
Proof.
  intros Huniq He Hp Hk Hr Hc. run_login.
  cbn [falsy]. rewrite !bool_decide_eq_false_2 by done. cbn [orb].
  change (default "" (Some e)) with e. change (default "" (Some p)) with p.
  rewrite (select_user_by_email_unique _ _ k r Hk Hr).
  - step. rewrite Hc. by step.
  - intros k' r' Hk' Hr'. apply (Huniq k' k r' r Hk' Hk). left. congruence.
Qed.

(** X3.  Register, then log in: when [register] creates the user and
    [bcrypt.compare] accepts the password against the hash just stored,
    a login with the same email and password answers 200 with the
    identifier, username and email that [register] returned. *)
Theorem register_then_login u e p salt now now' w :
  u <> "" -> e <> "" -> 6 <= Z.of_nat (js_length p) ->
  ~ user_conflict (w_db w) e u ->
  compare p (hash p salt) = true ->
  let created := register cfg hash (Some u) (Some e) (Some p) salt now w in
  let id := next_rowid (users_seq (w_db w)) (users (w_db w)) in
  created.1 = registered_response cfg id u e now /\
  (login cfg compare (Some e) (Some p) now' created.2).1
    = logged_in_response cfg id (UserRow u e (hash p salt) now) now'.
Proof.
  intros Hu He Hlen Hno Hc. cbv zeta.
  destruct (register_cases cfg hash (Some u) (Some e) (Some p) salt now w)
    as [(H400 & _)|(u' & e' & p' & [= <-] & [= <-] & [= <-] & _ & _ & _ & Hrun)].
  { exfalso. revert H400. unfold register. run_request.
    cbn [falsy]. rewrite !bool_decide_eq_false_2
      by (try done; intros ->; simpl in Hlen; lia).
    cbn [orb]. change (default "" (Some p)) with p.
    change (default "" (Some u)) with u. change (default "" (Some e)) with e.
    destruct (decide (Z.of_nat (js_length p) < 6)); [lia|]. step.
    apply select_user_None in Hno. rewrite Hno. step. rewrite Hno. by step. }
  cbv zeta in Hrun. destruct Hrun as (Hresp & Hdb & Hfs).
  split; [done|].
  set (id := next_rowid (users_seq (w_db w)) (users (w_db w))) in *.
  assert (Hp : p <> "") by (intros ->; simpl in Hlen; lia).
  run_login. cbn [falsy]. rewrite !bool_decide_eq_false_2 by done. cbn [orb].
  change (default "" (Some e)) with e. change (default "" (Some p)) with p.
  erewrite (select_user_by_email_unique _ e id
              (UserRow u e (hash p salt) now)).
  - step. cbn [u_password]. rewrite Hc. by step.
  - rewrite Hdb. cbn [users]. by rewrite lookup_insert_eq.
  - done.
  - intros k' r'. rewrite Hdb. cbn [users]. rewrite lookup_insert.
    destruct (decide (id = k')) as [|Hne]; [done|].
    intros Hk' He'. destruct Hno. exists k', r'. eauto.
Qed.

End RegisterLogin.

Ltac two_users_cases Hk :=
  unfold Sample.stocked, Sample.two_users in Hk; cbn [w_db users] in Hk;
  rewrite lookup_insert in Hk; destruct (decide (_ = _)) as [<-|];
  [injection Hk as <-
  |rewrite lookup_insert in Hk; destruct (decide (_ = _)) as [<-|];
   [injection Hk as <-|by rewrite lookup_empty in Hk]].

Lemma login_hides_the_cause_witness :
  (login Sample.cfg Demo.compare (Some "alice@x.com") (Some "wrong!") 9
     Sample.stocked).1 = Json 401 (error_body "Invalid credentials") /\
  (login Sample.cfg Demo.compare (Some "carol@x.com") (Some "wrong!") 9
     Sample.stocked).1 = Json 401 (error_body "Invalid credentials").
Proof.
  split.
  - refine (proj1 (login_hides_the_cause Sample.cfg Demo.compare
                     "alice@x.com" "wrong!" 9 Sample.stocked _ _ _));
      [discriminate|discriminate|].
    intros k r Hk He. two_users_cases Hk; [reflexivity|discriminate].
  - refine (proj1 (login_hides_the_cause Sample.cfg Demo.compare
                     "carol@x.com" "wrong!" 9 Sample.stocked _ _ _));
      [discriminate|discriminate|].
    intros k r Hk He. two_users_cases Hk; discriminate.
Defined.

Lemma sample_users_unique : users_unique (w_db Sample.stocked).
Proof.
  intros k1 k2 r1 r2 H1 H2 Hsame.
  two_users_cases H1; two_users_cases H2; try done;
    destruct Hsame; discriminate.
Defined.

Lemma login_answers_with_the_row_witness :
  users (w_db Sample.stocked) !! 1 = Some Demo.alice_row /\
  (login Sample.cfg (fun _ _ => true) (Some "alice@x.com") (Some "secret1") 9
     Sample.stocked).1 = logged_in_response Sample.cfg 1 Demo.alice_row 9.
Proof.
  split; [reflexivity|].
  refine (f_equal fst (login_answers_with_the_row Sample.cfg (fun _ _ => true)
            "alice@x.com" "secret1" 9 Sample.stocked 1 Demo.alice_row
            sample_users_unique _ _ eq_refl eq_refl eq_refl));
    discriminate.
Defined.

Lemma register_then_login_witness :
  Demo.compare "secret3" (Sample.hash "secret3" "s1") = true /\
  (login Sample.cfg Demo.compare (Some "carol@x.com") (Some "secret3") 11
     (register Sample.cfg Sample.hash (Some "carol") (Some "carol@x.com")
        (Some "secret3") "s1" 10 Sample.stocked).2).1
    = logged_in_response Sample.cfg 3
        (UserRow "carol" "carol@x.com" "s1$secret3" 10) 11.
Proof.
  split; [reflexivity|].
  refine (proj2 (register_then_login Sample.cfg Sample.hash Demo.compare
            "carol" "carol@x.com" "secret3" "s1" 10 11 Sample.stocked
            _ _ _ _ eq_refl)); try discriminate.
  intros (k & r & Hk & Hc). two_users_cases Hk; destruct Hc; discriminate.
Defined.

Lemma register_conflict cfg hash u e p salt now w :
  u <> "" -> e <> "" -> 6 <= Z.of_nat (js_length p) ->
  user_conflict (w_db w) e u ->
  register cfg hash (Some u) (Some e) (Some p) salt now w
    = (Json 400 (error_body "User already exists"),
       World (w_db w) (w_fs w)
         (w_trace w
          ++ [Sql "SELECT * FROM users WHERE email = ? OR username = ?"])).
Proof.
  intros Hu He Hlen Hc. unfold register. run_request.
  assert (Hp : p <> "") by (intros ->; simpl in Hlen; lia).
  cbn [falsy]. rewrite !bool_decide_eq_false_2 by done. cbn [orb].
  change (default "" (Some u)) with u. change (default "" (Some e)) with e.
  change (default "" (Some p)) with p.
  destruct (decide (Z.of_nat (js_length p) < 6)); [lia|]. step.
  destruct (select_user_by_email_or_username (w_db w) e u) eqn:Hs; [done|].
  apply select_user_None in Hs. by destruct Hs.
Qed.

Section Accounts.

Context (cfg : config) (hash : string -> string -> string).

(** X4.  [register] keeps emails and usernames unique: if no two user
    rows share an email or a username before, none do after, whatever the
    request and its outcome. *)
Theorem register_keeps_users_unique username email password salt now w :
  users_unique (w_db w) ->
  users_unique
    (w_db (register cfg hash username email password salt now w).2).
Proof.
  intros Huniq.
  destruct (register_cases cfg hash username email password salt now w)
    as [(_ & -> & _)|(u & e & p & _ & _ & _ & _ & _ & Hno & Hrun)]; [done|].
  cbv zeta in Hrun. destruct Hrun as (_ & -> & _).
  set (id := next_rowid (users_seq (w_db w)) (users (w_db w))).
  intros k1 k2 r1 r2. cbn [users]. rewrite !lookup_insert.
  destruct (decide (id = k1)) as [<-|], (decide (id = k2)) as [<-|];
    try done.
  - intros [= <-] H2 Hsame. destruct Hno. exists k2, r2. cbn in Hsame.
    split; [done|]. destruct Hsame; eauto.
  - intros H1 [= <-] Hsame. destruct Hno. exists k1, r1. cbn in Hsame.
    split; [done|]. destruct Hsame; eauto.
  - apply Huniq.
Qed.

(** X5.  Once a register request has been answered 201, a later register
    request with the same email or the same username is answered 400
    "User already exists" and leaves the stores as they are, whatever its
    other fields are. *)
Theorem register_twice_conflicts
    username email password salt now w u' e' p' salt' now' :
  let first := register cfg hash username email password salt now w in
  status_of first.1 = Some 201 ->
  u' <> "" -> e' <> "" -> 6 <= Z.of_nat (js_length p') ->
  email = Some e' \/ username = Some u' ->
  (register cfg hash (Some u') (Some e') (Some p') salt' now' first.2).1
    = Json 400 (error_body "User already exists") /\
  stores_kept first.2
    (register cfg hash (Some u') (Some e') (Some p') salt' now' first.2).
Proof.
  cbv zeta. intros H201 Hu He Hlen Hsame.
  destruct (register_cases cfg hash username email password salt now w)
    as [(H400 & _)|(u & e & p & -> & -> & _ & _ & _ & _ & Hrun)];
    [congruence|].
  cbv zeta in Hrun. destruct Hrun as (_ & Hdb & _).
  rewrite register_conflict; [done|done|done|done|].
  rewrite Hdb.
  exists (next_rowid (users_seq (w_db w)) (users (w_db w))),
         (UserRow u e (hash p salt) now).
  cbn [users u_email u_username]. rewrite lookup_insert_eq.
  split; [done|]. destruct Hsame as [[= ->]|[= ->]]; eauto.
Qed.

End Accounts.

Lemma register_keeps_users_unique_witness :
  users_unique (w_db Sample.stocked) /\
  users_unique
    (w_db (register Sample.cfg Sample.hash (Some "carol")
             (Some "carol@x.com") (Some "secret3") "s1" 10
             Sample.stocked).2).
Proof.
  split; [exact sample_users_unique|].
  exact (register_keeps_users_unique Sample.cfg Sample.hash (Some "carol")
           (Some "carol@x.com") (Some "secret3") "s1" 10 Sample.stocked
           sample_users_unique).
Defined.

Lemma register_twice_conflicts_witness :
  status_of (register Sample.cfg Sample.hash (Some "carol")
               (Some "carol@x.com") (Some "secret3") "s1" 10
               Sample.stocked).1 = Some 201 /\
  (register Sample.cfg Sample.hash (Some "caroline") (Some "carol@x.com")
     (Some "another") "s2" 11
     (register Sample.cfg Sample.hash (Some "carol") (Some "carol@x.com")
        (Some "secret3") "s1" 10 Sample.stocked).2).1
    = Json 400 (error_body "User already exists").
Proof.
  split; [reflexivity|].
  refine (proj1 (register_twice_conflicts Sample.cfg Sample.hash
            (Some "carol") (Some "carol@x.com") (Some "secret3") "s1" 10
            Sample.stocked "caroline" "carol@x.com" "another" "s2" 11
            eq_refl _ _ _ (or_introl eq_refl))); discriminate.
Defined.

Lemma login_answers_with_the_row_run cfg compare e p now w k r :
  users_unique (w_db w) ->
  e <> "" -> p <> "" ->
  users (w_db w) !! k = Some r -> u_email r = e ->
  compare p (u_password r) = true ->
  login cfg compare (Some e) (Some p) now w
    = (logged_in_response cfg k r now,
       World (w_db w) (w_fs w)
             (w_trace w ++ [Sql "SELECT * FROM users WHERE email = ?"])).
Proof.
  intros Huniq He Hp Hk Hr Hc. run_login.
  cbn [falsy]. rewrite !bool_decide_eq_false_2 by done. cbn [orb].
  change (default "" (Some e)) with e. change (default "" (Some p)) with p.
  rewrite (select_user_by_email_unique _ _ k r Hk Hr).
  - step. rewrite Hc. by step.
  - intros k' r' Hk' Hr'. apply (Huniq k' k r' r Hk' Hk). left. congruence.
Qed.

(** ** Sessions *)

Lemma authenticate_minted secret c now now' :
  authenticateToken secret now' (Some (jwt_sign c secret now))
    = if decide (now' < now + 7 * 24 * 3600) then inr c else inl TokenExpired.
Proof.
  unfold authenticateToken, jwt_sign. cbn [signed_with exp payload].
  by destruct (decide (secret = secret)).
Qed.

Section Sessions.

Context (cfg : config) (hash : string -> string -> string)
        (compare : string -> string -> bool).

(** X6.  Register, then ask who I am: for seven days from its minting,
    the token that [register] returns opens [/me], and the answer is the
    identifier, username and email that were registered, with the creation
    time of the row. *)
Theorem register_then_me u e p salt now now' w :
  u <> "" -> e <> "" -> 6 <= Z.of_nat (js_length p) ->
  ~ user_conflict (w_db w) e u ->
  now' < now + 7 * 24 * 3600 ->
  let created := register cfg hash (Some u) (Some e) (Some p) salt now w in
  let id := next_rowid (users_seq (w_db w)) (users (w_db w)) in
  let token := jwt_sign (Claims id u e) (JWT_SECRET cfg) now in
  created.1 = registered_response cfg id u e now /\
  (me cfg now' (Some token) created.2).1
    = Json 200 (JObj [("id", JNum id); ("username", JStr u);
                      ("email", JStr e); ("created_at", JNum now)]).
Proof.
  intros Hu He Hlen Hno Hnow. cbv zeta.
  destruct (register_cases cfg hash (Some u) (Some e) (Some p) salt now w)
    as [(H400 & _)|(u' & e' & p' & [= <-] & [= <-] & [= <-] & _ & _ & _ & Hrun)].
  { exfalso. revert H400. unfold register. run_request.
    cbn [falsy]. rewrite !bool_decide_eq_false_2
      by (try done; intros ->; simpl in Hlen; lia).
    cbn [orb]. change (default "" (Some p)) with p.
    change (default "" (Some u)) with u. change (default "" (Some e)) with e.
    destruct (decide (Z.of_nat (js_length p) < 6)); [lia|]. step.
    apply select_user_None in Hno. rewrite Hno. step. rewrite Hno. by step. }
  cbv zeta in Hrun. destruct Hrun as (Hresp & Hdb & _). split; [done|].
  destruct (register cfg hash (Some u) (Some e) (Some p) salt now w)
    as [resp w1]. cbn [fst snd] in *.
  unfold me.
  rewrite (authenticated_ok _ _ _
             (Claims (next_rowid (users_seq (w_db w)) (users (w_db w))) u e)).
  - run_request. rewrite Hdb. cbn [users tok_id].
    by rewrite lookup_insert_eq.
  - rewrite authenticate_minted. by destruct (decide _).
Qed.

(** X7.  Log in, then ask who I am: on a database whose emails are
    unique, the token of a successful login opens [/me] for seven days and
    [/me] answers with the identifier, username and email of the row that
    logged in. *)
Theorem login_then_me e p now now' w k r :
  users_unique (w_db w) ->
  e <> "" -> p <> "" ->
  users (w_db w) !! k = Some r -> u_email r = e ->
  compare p (u_password r) = true ->
  now' < now + 7 * 24 * 3600 ->
  let session := login cfg compare (Some e) (Some p) now w in
  let token :=
    jwt_sign (Claims k (u_username r) (u_email r)) (JWT_SECRET cfg) now in
  session.1 = logged_in_response cfg k r now /\
  (me cfg now' (Some token) session.2).1
    = Json 200 (JObj [("id", JNum k); ("username", JStr (u_username r));
                      ("email", JStr (u_email r));
                      ("created_at", JNum (u_created_at r))]).
Proof.
  intros Huniq He Hp Hk Hr Hc Hnow. cbv zeta.
  rewrite (login_answers_with_the_row_run cfg compare e p now w k r)
    by done.
  split; [done|]. cbn [snd].
  unfold me.
  rewrite (authenticated_ok _ _ _ (Claims k (u_username r) (u_email r))).
  - run_request. cbn [tok_id]. by rewrite Hk.
  - rewrite authenticate_minted. by destruct (decide _).
Qed.

(** A request that the authentication middleware turns down (no
    token, a token signed with another secret, or a token past its seven
    days) is answered by the middleware on every guarded route, and the
    world is untouched: in particular the upload route stores nothing. *)
Theorem rejected_request_touches_nothing now auth err fileId newName parts w :
  authenticateToken (JWT_SECRET cfg) now auth = inl err ->
  me cfg now auth w = (AuthRejected err, w) /\
  upload cfg now auth parts w = (AuthRejected err, w) /\
  list_files cfg now auth w = (AuthRejected err, w) /\
  download cfg now auth fileId w = (AuthRejected err, w) /\
  delete_file cfg now auth fileId w = (AuthRejected err, w) /\
  rename cfg now auth fileId newName w = (AuthRejected err, w).
Proof.
  intros Hauth.
  unfold me, upload, list_files, download, delete_file, rename, authenticated.
  by rewrite Hauth.
Qed.

End Sessions.

Lemma register_then_me_witness :
  ~ user_conflict (w_db Sample.stocked) "carol@x.com" "carol" /\
  (me Sample.cfg 11
     (Some (jwt_sign (Claims 3 "carol" "carol@x.com") "s3cret" 10))
     (register Sample.cfg Sample.hash (Some "carol") (Some "carol@x.com")
        (Some "secret3") "s1" 10 Sample.stocked).2).1
    = Json 200 (JObj [("id", JNum 3); ("username", JStr "carol");
                      ("email", JStr "carol@x.com");
                      ("created_at", JNum 10)]).
Proof.
  assert (Hno : ~ user_conflict (w_db Sample.stocked) "carol@x.com" "carol").
  { intros (k & r & Hk & Hc). two_users_cases Hk; destruct Hc; discriminate. }
  split; [exact Hno|].
  refine (proj2 (register_then_me Sample.cfg Sample.hash
            "carol" "carol@x.com" "secret3" "s1" 10 11 Sample.stocked
            _ _ _ Hno _)); try discriminate. reflexivity.
Defined.

Lemma login_then_me_witness :
  (me Sample.cfg 10
     (Some (jwt_sign (Claims 1 "alice" "alice@x.com") "s3cret" 9))
     (login Sample.cfg (fun _ _ => true) (Some "alice@x.com")
        (Some "secret1") 9 Sample.stocked).2).1
    = Json 200 (JObj [("id", JNum 1); ("username", JStr "alice");
                      ("email", JStr "alice@x.com");
                      ("created_at", JNum 0)]).
Proof.
  refine (proj2 (login_then_me Sample.cfg (fun _ _ => true)
            "alice@x.com" "secret1" 9 10 Sample.stocked 1 Demo.alice_row
            sample_users_unique _ _ eq_refl eq_refl eq_refl _));
    try discriminate. reflexivity.
Defined.

Lemma rejected_request_touches_nothing_witness :
  authenticateToken (JWT_SECRET Sample.cfg) (7 * 24 * 3600)
    (Sample.token_of Sample.alice) = inl TokenExpired /\
  upload Sample.cfg (7 * 24 * 3600) (Sample.token_of Sample.alice)
    (Some [Sample.notes]) Sample.stocked
    = (AuthRejected TokenExpired, Sample.stocked).
Proof.
  split; [reflexivity|].
  exact (proj1 (proj2 (rejected_request_touches_nothing Sample.cfg
                  (7 * 24 * 3600) (Sample.token_of Sample.alice) TokenExpired
                  (ParamInt 1) None (Some [Sample.notes]) Sample.stocked
                  eq_refl))).
Defined.

(** ** Requests that only read *)

Section ReadOnly.

Context (cfg : config) (compare : string -> string -> bool).

(** X8.  [/me], list, download and login never change the database or the
    disk, whatever the request is and however it is answered. *)
Theorem reading_routes_change_nothing
    now auth fileId email password w :
  stores_kept w (me cfg now auth w) /\
  stores_kept w (list_files cfg now auth w) /\
  stores_kept w (download cfg now auth fileId w) /\
  stores_kept w (login cfg compare email password now w).
Proof.
  unfold stores_kept, me, list_files, download, authenticated.
  split; [|split; [|split]].
  - destruct (authenticateToken (JWT_SECRET cfg) now auth) as [e|user];
      [done|]. run_request.
    by destruct (users (w_db w) !! tok_id user).
  - destruct (authenticateToken (JWT_SECRET cfg) now auth) as [e|user];
      [done|]. by run_request.
  - destruct (authenticateToken (JWT_SECRET cfg) now auth) as [e|user];
      [done|]. run_request.
    destruct (select_file_owned (w_db w) fileId (tok_id user))
      as [[k r]|]; [|done]. step.
    destruct (w_fs w !! file_path cfg user r) as [[|]|] eqn:Hfs; step;
      by rewrite ?Hfs.
  - run_login. destruct (falsy email || falsy password); [done|]. step.
    destruct (select_user_by_email (w_db w) (default "" email))
      as [[k r]|]; [|done]. step.
    by destruct (compare (default "" password) (u_password r)).
Qed.

End ReadOnly.

(** ** Composing the file routes *)

Lemma delete_owned_run cfg now auth user fileId k r w :
  authenticateToken (JWT_SECRET cfg) now auth = inr user ->
  param_rowid fileId = Some k ->
  files (w_db w) !! k = Some r ->
  f_user_id r = tok_id user ->
  w_fs w !! artifact_path cfg r <> Some Dir ->
  exists tr,
    delete_file cfg now auth fileId w
      = (deleted_ok,
         World (Database (users (w_db w)) (users_seq (w_db w))
                         (delete k (files (w_db w))) (files_seq (w_db w)))
               (delete (artifact_path cfg r) (w_fs w)) tr).
Proof.
  intros Hauth Hp Hk Hu.
  unfold delete_file. rewrite (authenticated_ok _ _ _ _ _ Hauth).
  replace (artifact_path cfg r) with (file_path cfg user r)
    by (unfold file_path, artifact_path; by rewrite Hu).
  run_request. rewrite (select_file_owned_Some _ _ _ _ _ Hp Hk Hu). step.
  unfold delete_file_row.
  destruct (w_fs w !! file_path cfg user r) as [[data|]|] eqn:Hfs; step;
    rewrite ?Hfs, ?Hp; step; intros Hdir; try done.
  - eexists. reflexivity.
  - rewrite (delete_id (w_fs w)) by done. eexists. reflexivity.
Qed.

Lemma rename_owned_run cfg now auth user fileId k r name w :
  authenticateToken (JWT_SECRET cfg) now auth = inr user ->
  param_rowid fileId = Some k ->
  files (w_db w) !! k = Some r ->
  f_user_id r = tok_id user ->
  name <> "" ->
  exists tr,
    rename cfg now auth fileId (Some name) w
      = (renamed_ok name,
         World (Database (users (w_db w)) (users_seq (w_db w))
                  (<[k := set_original_name name r]> (files (w_db w)))
                  (files_seq (w_db w)))
               (w_fs w) tr).
Proof.
  intros Hauth Hp Hk Hu Hne.
  unfold rename. rewrite (authenticated_ok _ _ _ _ _ Hauth).
  run_request. cbn [falsy]. rewrite bool_decide_eq_false_2 by done. step.
  rewrite (select_file_owned_Some _ _ _ _ _ Hp Hk Hu). step.
  unfold update_original_name. rewrite Hp.
  change (default "" (Some name)) with name.
  replace (alter (set_original_name name) k (files (w_db w)))
    with (<[k := set_original_name name r]> (files (w_db w))).
  - eexists. reflexivity.
  - apply map_eq. intros j. rewrite lookup_alter, lookup_insert.
    destruct (decide (k = j)) as [<-|]; [by rewrite Hk|done].
Qed.

Lemma unowned_answers cfg now auth user fileId w :
  authenticateToken (JWT_SECRET cfg) now auth = inr user ->
  select_file_owned (w_db w) fileId (tok_id user) = None ->
  (download cfg now auth fileId w).1 = not_found /\
  (delete_file cfg now auth fileId w).1 = not_found /\
  forall name, name <> "" ->
    (rename cfg now auth fileId (Some name) w).1 = not_found.
Proof.
  intros Hauth Hno. unfold download, delete_file, rename.
  split; [|split]; [| |intros name Hne];
    rewrite (authenticated_ok _ _ _ _ _ Hauth); run_request;
    rewrite ?Hno; try done.
  cbn [falsy]. rewrite bool_decide_eq_false_2 by done. step.
  by rewrite Hno.
Qed.

Section FileLifeCycle.

Context (cfg : config).

(** X9.  Delete, then ask again: when the delete of an owned file is
    answered 200, its artifact is gone from the disk, and a download, a
    second delete or a rename of the same identifier with the same token
    is answered 404 "File not found". *)
Theorem deleted_file_is_gone now now' auth user fileId k r w :
  authenticateToken (JWT_SECRET cfg) now auth = inr user ->
  authenticateToken (JWT_SECRET cfg) now' auth = inr user ->
  param_rowid fileId = Some k ->
  files (w_db w) !! k = Some r ->
  f_user_id r = tok_id user ->
  w_fs w !! artifact_path cfg r <> Some Dir ->
  let after := delete_file cfg now auth fileId w in
  after.1 = deleted_ok /\
  w_fs after.2 !! artifact_path cfg r = None /\
  (download cfg now' auth fileId after.2).1 = not_found /\
  (delete_file cfg now' auth fileId after.2).1 = not_found /\
  (forall name, name <> "" ->
     (rename cfg now' auth fileId (Some name) after.2).1 = not_found).
Proof.
  intros Hauth Hauth' Hp Hk Hu Hdir after. subst after.
  destruct (delete_owned_run _ _ _ _ _ _ _ _ Hauth Hp Hk Hu Hdir)
    as [tr ->].
  cbn [fst snd]. split; [done|]. split; [cbn; by rewrite lookup_delete_eq|].
  apply (unowned_answers cfg now' auth user); [done|].
  unfold select_file_owned. rewrite Hp. cbn [w_db files].
  by rewrite lookup_delete_eq.
Qed.

(** X10.  Rename, then download: after an owned file is renamed, a
    download of the same identifier is an attachment with the same bytes
    under the new name; and of two renames in a row the last one wins. *)
Theorem rename_then_download now now' auth user fileId k r name data w :
  authenticateToken (JWT_SECRET cfg) now auth = inr user ->
  authenticateToken (JWT_SECRET cfg) now' auth = inr user ->
  param_rowid fileId = Some k ->
  files (w_db w) !! k = Some r ->
  f_user_id r = tok_id user ->
  w_fs w !! artifact_path cfg r = Some (File data) ->
  name <> "" ->
  let after := rename cfg now auth fileId (Some name) w in
  (download cfg now' auth fileId after.2).1 = Attachment name data /\
  (forall name', name' <> "" ->
     w_db (rename cfg now' auth fileId (Some name') after.2).2
       = w_db (rename cfg now' auth fileId (Some name') w).2).
Proof.
  intros Hauth Hauth' Hp Hk Hu Hfs Hne after. subst after.
  destruct (rename_owned_run _ _ _ _ _ _ _ _ w Hauth Hp Hk Hu Hne)
    as [tr ->].
  cbn [snd]. split.
  - apply (download_owned cfg now' auth user fileId k
             (set_original_name name r)); try done.
    cbn [w_db files]. by rewrite lookup_insert_eq.
  - intros name' Hne'.
    edestruct (rename_owned_run cfg now' auth user fileId k
                 (set_original_name name r) name') as [tr1 ->]; try done.
    { cbn [w_db files]. by rewrite lookup_insert_eq. }
    destruct (rename_owned_run _ _ _ _ _ _ _ name' w Hauth' Hp Hk Hu Hne')
      as [tr2 ->].
    cbn [snd w_db users users_seq files files_seq]. f_equal.
    by rewrite insert_insert_eq.
Qed.

(** X11.  Download when the artifact is not a file: for a record the
    caller owns, a missing artifact is answered 404 "File not found on
    server"; a directory in its place passes the existence test, the send
    gives up on it without an error, and the request ends with the default
    404 page; the record stays in both cases and no store changes. *)
Theorem download_without_artifact now auth user fileId k r w :
  authenticateToken (JWT_SECRET cfg) now auth = inr user ->
  param_rowid fileId = Some k ->
  files (w_db w) !! k = Some r ->
  f_user_id r = tok_id user ->
  (w_fs w !! artifact_path cfg r = None ->
   (download cfg now auth fileId w).1
     = Json 404 (error_body "File not found on server")) /\
  (w_fs w !! artifact_path cfg r = Some Dir ->
   (download cfg now auth fileId w).1 = FinalHandler 404) /\
  files (w_db (download cfg now auth fileId w).2) !! k = Some r /\
  stores_kept w (download cfg now auth fileId w).
Proof.
  intros Hauth Hp Hk Hu.
  unfold download. rewrite (authenticated_ok _ _ _ _ _ Hauth).
  replace (artifact_path cfg r) with (file_path cfg user r)
    by (unfold file_path, artifact_path; by rewrite Hu).
  unfold stores_kept.
  run_request. rewrite (select_file_owned_Some _ _ _ _ _ Hp Hk Hu). step.
  destruct (w_fs w !! file_path cfg user r) as [[|]|] eqn:Hfs; step;
    rewrite ?Hfs; step; done.
Qed.

End FileLifeCycle.

Lemma deleted_file_is_gone_witness :
  let after := delete_file Sample.cfg 1 (Sample.token_of Sample.alice)
                 (ParamInt 1) Sample.stocked in
  w_fs Sample.stocked !! artifact_path Sample.cfg Sample.notes_row
    <> Some Dir /\
  after.1 = deleted_ok /\
  (download Sample.cfg 2 (Sample.token_of Sample.alice) (ParamInt 1)
     after.2).1 = not_found.
Proof.
  cbv zeta.
  assert (Hdir : w_fs Sample.stocked
                   !! artifact_path Sample.cfg Sample.notes_row <> Some Dir)
    by (vm_compute; discriminate).
  split; [exact Hdir|].
  destruct (deleted_file_is_gone Sample.cfg 1 2
              (Sample.token_of Sample.alice) Sample.alice (ParamInt 1) 1
              Sample.notes_row Sample.stocked eq_refl eq_refl eq_refl
              eq_refl eq_refl Hdir) as (H1 & _ & H2 & _).
  split; [exact H1|exact H2].
Defined.

Lemma rename_then_download_witness :
  (download Sample.cfg 2 (Sample.token_of Sample.alice) (ParamInt 1)
     (rename Sample.cfg 1 (Sample.token_of Sample.alice) (ParamInt 1)
        (Some "todo.txt") Sample.stocked).2).1
    = Attachment "todo.txt" [x68; x69].
Proof.
  refine (proj1 (rename_then_download Sample.cfg 1 2
            (Sample.token_of Sample.alice) Sample.alice (ParamInt 1) 1
            Sample.notes_row "todo.txt" [x68; x69] Sample.stocked
            eq_refl eq_refl eq_refl eq_refl eq_refl _ _));
    [reflexivity|discriminate].
Defined.

Lemma download_without_artifact_witness :
  files (w_db Sample.blocked) !! 1 = Some Sample.notes_row /\
  (download Sample.cfg 1 (Sample.token_of Sample.alice) (ParamInt 1)
     Sample.blocked).1 = FinalHandler 404.
Proof.
  split; [reflexivity|].
  refine (proj1 (proj2 (download_without_artifact Sample.cfg 1
            (Sample.token_of Sample.alice) Sample.alice (ParamInt 1) 1
            Sample.notes_row Sample.blocked eq_refl eq_refl eq_refl
            eq_refl)) _).
  reflexivity.
Defined.

(** ** How the routes change the catalog *)

Lemma handle_stores label msg body w :
  w_db (handle label msg body w).2 = w_db (body w).2 /\
  w_fs (handle label msg body w).2 = w_fs (body w).2.
Proof. unfold handle. by destruct (body w) as [[r|e] w']. Qed.

(** Whatever its outcome, the insert loop of the upload handler keeps the
    users and the disk, keeps every record it found, and adds only records
    of the caller, who then has a user row, under rowids beyond the
    counter it found. *)
Lemma upload_loop_db user now fl :
  forall acc w,
    let w2 := (upload_loop user now fl acc w).2 in
    users (w_db w2) = users (w_db w) /\
    users_seq (w_db w2) = users_seq (w_db w) /\
    w_fs w2 = w_fs w /\
    files_seq (w_db w) <= files_seq (w_db w2) /\
    (forall k r, files (w_db w) !! k = Some r ->
                 files (w_db w2) !! k = Some r) /\
    (forall k r, files (w_db w2) !! k = Some r ->
       files (w_db w) !! k = Some r \/
       (files (w_db w) !! k = None /\ f_user_id r = tok_id user /\
        is_Some (users (w_db w) !! tok_id user) /\
        files_seq (w_db w) < k <= files_seq (w_db w2))).
Proof.
  induction fl as [|f rest IH]; intros acc w; cbv zeta.
  - cbn. repeat split; try done; try lia. intros k r Hk. by left.
  - cbn [upload_loop]. unfold bind at 1.
    cbv beta delta [sql_insert_file bind emit get_db put_db ret throw].
    step.
    destruct (users (w_db w) !! tok_id user) as [u|] eqn:Hu; step.
    2:{ repeat split; try done; try lia. intros k r Hk. by left. }
    set (k0 := next_rowid (files_seq (w_db w)) (files (w_db w))).
    match goal with
    | |- context [upload_loop user now rest ?a ?w'] =>
        specialize (IH a w'); cbv zeta in IH;
        destruct (upload_loop user now rest a w') as [o w2]
    end.
    cbn [snd w_db w_fs users users_seq files files_seq] in *.
    destruct IH as (Hus & Huseq & Hfs & Hseq & Hold & Hnew).
    assert (Hk0 : files_seq (w_db w) < k0) by (unfold k0, next_rowid; lia).
    assert (Hfresh : files (w_db w) !! k0 = None) by apply next_rowid_fresh.
    split; [done|]. split; [done|]. split; [done|]. split; [lia|]. split.
    + intros k r Hk. apply Hold. rewrite lookup_insert_ne; [done|].
      intros <-. congruence.
    + intros k r Hk. apply Hnew in Hk as [Hk|(Hk & Ho & Hsome & Hrange)].
      * rewrite lookup_insert in Hk.
        destruct (decide (k0 = k)) as [<-|]; [|by left].
        injection Hk as <-. right. cbn. split; [done|]. split; [done|].
        split; [done|lia].
      * right. rewrite lookup_insert in Hk.
        destruct (decide (k0 = k)) as [<-|]; [done|].
        repeat split; try done; lia.
Qed.

(** The same for the whole upload route, whoever calls it and however it
    ends. *)
Lemma upload_db_cases cfg now auth parts w :
  let w2 := (upload cfg now auth parts w).2 in
  users (w_db w2) = users (w_db w) /\
  users_seq (w_db w2) = users_seq (w_db w) /\
  files_seq (w_db w) <= files_seq (w_db w2) /\
  (forall k r, files (w_db w) !! k = Some r ->
               files (w_db w2) !! k = Some r) /\
  (forall k r, files (w_db w2) !! k = Some r ->
     files (w_db w) !! k = Some r \/
     (files (w_db w) !! k = None /\
      is_Some (users (w_db w) !! f_user_id r) /\
      files_seq (w_db w) < k <= files_seq (w_db w2))).
Proof.
  cbv zeta. unfold upload, authenticated.
  assert (Hsame : forall w', w_db w' = w_db w ->
    users (w_db w') = users (w_db w) /\
    users_seq (w_db w') = users_seq (w_db w) /\
    files_seq (w_db w) <= files_seq (w_db w') /\
    (forall k r, files (w_db w) !! k = Some r ->
                 files (w_db w') !! k = Some r) /\
    (forall k r, files (w_db w') !! k = Some r ->
       files (w_db w) !! k = Some r \/
       (files (w_db w) !! k = None /\
        is_Some (users (w_db w) !! f_user_id r) /\
        files_seq (w_db w) < k <= files_seq (w_db w')))).
  { intros w' ->. repeat split; try done; try lia. intros k r Hk. by left. }
  destruct (authenticateToken (JWT_SECRET cfg) now auth) as [e|user];
    [by apply Hsame|].
  unfold upload_route. destruct parts as [parts|]; [|by apply Hsame].
  pose proof (upload_array_db cfg user parts 10 [] w) as Hdb.
  destruct (upload_array cfg user 10 parts [] w) as [[[err|fl]|e] w1];
    cbn [snd] in Hdb; [by apply Hsame| |by apply Hsame].
  unfold upload_handler.
  destruct (handle_stores "Upload error:" "Failed to upload files"
              (upload_body user (Some fl) now) w1) as [-> _].
  destruct fl as [|f fl]; [by apply Hsame|].
  rewrite upload_body_nonempty by done. unfold bind.
  pose proof (upload_loop_db user now (f :: fl) [] w1) as Hloop.
  cbv zeta in Hloop.
  destruct (upload_loop user now (f :: fl) [] w1) as [[x|e] w2];
    cbn [snd ret] in *; rewrite Hdb in Hloop;
    destruct Hloop as (Hus & Huseq & _ & Hseq & Hold & Hnew);
    (repeat split; [done|done|done|done|]);
    intros k r Hk; apply Hnew in Hk as [Hk|(Hk & Ho & Hsome & Hrange)];
    [by left|right; by rewrite Ho|by left|right; by rewrite Ho].
Qed.

Lemma rename_db_cases cfg now auth fileId newName w :
  w_db (rename cfg now auth fileId newName w).2 = w_db w \/
  exists k r name,
    files (w_db w) !! k = Some r /\
    w_db (rename cfg now auth fileId newName w).2
      = Database (users (w_db w)) (users_seq (w_db w))
          (<[k := set_original_name name r]> (files (w_db w)))
          (files_seq (w_db w)).
Proof.
  unfold rename, authenticated.
  destruct (authenticateToken (JWT_SECRET cfg) now auth) as [e|user];
    [by left|].
  run_request. destruct (falsy newName); [by left|]. step.
  destruct (select_file_owned (w_db w) fileId (tok_id user))
    as [[k r]|] eqn:Hs; step; [|by left].
  right. unfold select_file_owned in Hs. unfold update_original_name.
  destruct (param_rowid fileId) as [k'|]; [|done].
  destruct (files (w_db w) !! k') as [r'|] eqn:Hk; [|done].
  destruct (decide (f_user_id r' = tok_id user)); [|done].
  injection Hs as <- <-. exists k', r', (default "" newName).
  split; [done|]. cbn [w_db]. f_equal.
  apply map_eq. intros j. rewrite lookup_alter, lookup_insert.
  destruct (decide (k' = j)) as [<-|]; [by rewrite Hk|done].
Qed.

Lemma delete_db_cases cfg now auth fileId w :
  w_db (delete_file cfg now auth fileId w).2 = w_db w \/
  exists k,
    param_rowid fileId = Some k /\
    w_db (delete_file cfg now auth fileId w).2
      = Database (users (w_db w)) (users_seq (w_db w))
          (delete k (files (w_db w))) (files_seq (w_db w)).
Proof.
  unfold delete_file, authenticated.
  destruct (authenticateToken (JWT_SECRET cfg) now auth) as [e|user];
    [by left|].
  run_request.
  destruct (select_file_owned (w_db w) fileId (tok_id user))
    as [[k r]|] eqn:Hs; step; [|by left].
  unfold select_file_owned in Hs. unfold delete_file_row.
  destruct (param_rowid fileId) as [k'|]; [|done].
  destruct (w_fs w !! file_path cfg user r) as [[|]|] eqn:Hfs; step;
    rewrite ?Hfs; step; [right; by exists k'|by left|right; by exists k'].
Qed.

Lemma upload_loop_fresh user now fl :
  forall acc w u,
    users (w_db w) !! tok_id user = Some u ->
    exists ids w2,
      upload_loop user now fl acc w
        = (Returned (acc ++ zip_with uploaded_json ids fl)%list, w2) /\
      length ids = length fl /\
      Forall (fun id => files (w_db w) !! id = None /\
                        files_seq (w_db w) < id) ids /\
      StronglySorted Z.lt ids /\
      (forall i id f, ids !! i = Some id -> fl !! i = Some f ->
                      files (w_db w2) !! id = Some (row_of user now f)).
Proof.
  induction fl as [|f rest IH]; intros acc w u Hu.
  - exists [], w. cbn. rewrite app_nil_r. repeat split; try done;
      constructor.
  - cbn [upload_loop]. unfold bind at 1.
    cbv beta delta [sql_insert_file bind emit get_db put_db ret throw].
    step. rewrite Hu. step.
    set (k := next_rowid (files_seq (w_db w)) (files (w_db w))).
    assert (Hk : files_seq (w_db w) < k) by (unfold k, next_rowid; lia).
    assert (Hfresh : files (w_db w) !! k = None) by apply next_rowid_fresh.
    match goal with
    | |- context [upload_loop user now rest ?a ?w'] =>
        destruct (IH a w' u Hu) as (ids & w2 & Hrun & Hlen & Hall & Hsort & Hnew);
        pose proof (upload_loop_db user now rest a w') as Hdb
    end.
    cbv zeta in Hdb. rewrite Hrun in Hdb.
    cbn [snd w_db w_fs files users files_seq] in *.
    destruct Hdb as (_ & _ & _ & _ & Hold & _).
    exists (k :: ids), w2. rewrite Hrun.
    split; [by rewrite <- app_assoc|]. split; [cbn; lia|].
    rewrite Forall_forall in Hall. split; [|split].
    + constructor; [done|]. apply Forall_forall. intros id Hid.
      destruct (Hall id Hid) as [Hnone Hlt].
      apply lookup_insert_None in Hnone as [Hnone _]. split; [done|lia].
    + constructor; [done|]. apply Forall_forall. intros id Hid.
      by destruct (Hall id Hid).
    + intros [|i] id f' Hid Hf'.
      * injection Hid as <-. injection Hf' as <-.
        apply Hold. by rewrite lookup_insert_eq.
      * by apply (Hnew i).
Qed.

Section Catalog.

Context (cfg : config) (hash : string -> string -> string).

(** X12.  Every record of the catalog keeps an owner: if each file
    record belongs to a user that has a row, the same holds after any
    register, upload, rename or delete request, whoever sends it and
    however it is answered. *)
Theorem catalog_records_keep_an_owner
    username email password salt now auth parts fileId newName w :
  files_have_owner (w_db w) ->
  files_have_owner
    (w_db (register cfg hash username email password salt now w).2) /\
  files_have_owner (w_db (upload cfg now auth parts w).2) /\
  files_have_owner (w_db (rename cfg now auth fileId newName w).2) /\
  files_have_owner (w_db (delete_file cfg now auth fileId w).2).
Proof.
  intros Hinv. split; [|split; [|split]].
  - destruct (register_cases cfg hash username email password salt now w)
      as [(_ & -> & _)|(u & e & p & _ & _ & _ & _ & _ & _ & Hrun)]; [done|].
    cbv zeta in Hrun. destruct Hrun as (_ & -> & _).
    intros k r Hk. cbn [users files] in *. rewrite lookup_insert.
    destruct (decide _); [done|]. by apply (Hinv k).
  - destruct (upload_db_cases cfg now auth parts w)
      as (Hus & _ & _ & _ & Hnew).
    intros k r Hk. rewrite Hus.
    apply Hnew in Hk as [Hk|(_ & Hsome & _)]; [by apply (Hinv k)|done].
  - destruct (rename_db_cases cfg now auth fileId newName w)
      as [->|(k & r & name & Hk & ->)]; [done|].
    intros k' r'. cbn [users files]. rewrite lookup_insert.
    destruct (decide (k = k')) as [<-|]; [|by apply Hinv].
    intros [= <-]. by apply (Hinv k r).
  - destruct (delete_db_cases cfg now auth fileId w)
      as [->|(k & _ & ->)]; [done|].
    intros k' r'. cbn [users files]. rewrite lookup_delete.
    destruct (decide (k = k')); [done|]. by apply Hinv.
Qed.

(** X13.  An accepted upload adds fresh records and touches no other:
    the identifiers it returns are strictly increasing, none of them was
    in the catalog before, each holds the record of its part, and every
    record and every user that was there before is unchanged. *)
Theorem accepted_upload_adds_fresh_records now auth user parts w :
  authenticateToken (JWT_SECRET cfg) now auth = inr user ->
  let after := upload cfg now auth (Some parts) w in
  status_of after.1 = Some 201 ->
  exists ids,
    after.1 = uploaded_response ids (stored_file cfg user <$> parts) /\
    length ids = length parts /\
    StronglySorted Z.lt ids /\
    (forall i id part, ids !! i = Some id -> parts !! i = Some part ->
       files (w_db w) !! id = None /\
       files (w_db after.2) !! id
         = Some (row_of user now (stored_file cfg user part))) /\
    (forall k r, files (w_db w) !! k = Some r ->
                 files (w_db after.2) !! k = Some r) /\
    users (w_db after.2) = users (w_db w).
Proof.
  intros Hauth after H201.
  destruct (upload_db_cases cfg now auth (Some parts) w)
    as (Hus & _ & _ & Hold & _). fold after in Hus, Hold.
  revert H201 Hus Hold. subst after.
  unfold upload. rewrite (authenticated_ok _ _ _ _ _ Hauth).
  intros H201 Hus Hold.
  destruct (upload_route_201 _ _ _ _ _ H201) as (w1 & u & Hup & Hne & Hu).
  pose proof (upload_array_db cfg user parts 10 [] w) as Hdb.
  rewrite Hup in Hdb. cbn [snd] in Hdb.
  revert Hus Hold. unfold upload_route. rewrite Hup.
  unfold upload_handler, handle.
  rewrite upload_body_nonempty by (by destruct parts).
  rewrite <- Hdb in Hu.
  destruct (upload_loop_fresh user now (stored_file cfg user <$> parts)
              [] w1 u Hu) as (ids & w2 & Hrun & Hlen & Hall & Hsort & Hnew).
  unfold bind, ret. rewrite Hrun. cbn [app fst snd]. intros Hus Hold.
  exists ids. rewrite length_fmap in Hlen.
  split; [done|]. split; [done|]. split; [done|]. split; [|done].
  intros i id part Hid Hpart. split.
  - rewrite Forall_forall in Hall. rewrite <- Hdb.
    apply Hall. apply list_elem_of_lookup. by exists i.
  - apply (Hnew i); [done|]. by rewrite list_lookup_fmap, Hpart.
Qed.

(** X14.  The AUTOINCREMENT counter stays ahead of the catalog: if no
    rowid of a file record is beyond the counter, the same holds after any
    register, upload, rename or delete request. *)
Theorem rowids_stay_bounded
    username email password salt now auth parts fileId newName w :
  rowids_bounded (w_db w) ->
  rowids_bounded
    (w_db (register cfg hash username email password salt now w).2) /\
  rowids_bounded (w_db (upload cfg now auth parts w).2) /\
  rowids_bounded (w_db (rename cfg now auth fileId newName w).2) /\
  rowids_bounded (w_db (delete_file cfg now auth fileId w).2).
Proof.
  intros Hinv. split; [|split; [|split]].
  - destruct (register_cases cfg hash username email password salt now w)
      as [(_ & -> & _)|(u & e & p & _ & _ & _ & _ & _ & _ & Hrun)]; [done|].
    cbv zeta in Hrun. destruct Hrun as (_ & -> & _). exact Hinv.
  - destruct (upload_db_cases cfg now auth parts w)
      as (_ & _ & Hseq & _ & Hnew).
    intros k r Hk. apply Hnew in Hk as [Hk|(_ & _ & Hrange)]; [|lia].
    apply Hinv in Hk. lia.
  - destruct (rename_db_cases cfg now auth fileId newName w)
      as [->|(k & r & name & Hk & ->)]; [done|].
    intros k' r'. cbn [files files_seq]. rewrite lookup_insert.
    destruct (decide (k = k')) as [<-|]; [|by apply Hinv].
    intros _. by apply (Hinv k r).
  - destruct (delete_db_cases cfg now auth fileId w)
      as [->|(k & _ & ->)]; [done|].
    intros k' r'. cbn [files files_seq]. rewrite lookup_delete.
    destruct (decide (k = k')); [done|]. by apply Hinv.
Qed.


(** X16.  An upload with more than 10 parts, or with a part longer than
    the size limit, is not answered by the handler: the error middleware
    of the server ends it with the default error page and status 500, and
    the database is as it was. *)
Theorem oversized_upload_is_a_500 now auth user parts w :
  authenticateToken (JWT_SECRET cfg) now auth = inr user ->
  (10 < length parts)%nat \/
  Exists (fun part => fileSize cfg < Z.of_nat (length (content part)))
         parts ->
  (upload cfg now auth (Some parts) w).1 = FinalHandler 500 /\
  w_db (upload cfg now auth (Some parts) w).2 = w_db w.
Proof.
  intros Hauth Hbig. unfold upload.
  rewrite (authenticated_ok _ _ _ _ _ Hauth). unfold upload_route.
  pose proof (upload_array_db cfg user parts 10 [] w) as Hdb.
  destruct (upload_array cfg user 10 parts [] w) as [[[err|fl]|e] w1] eqn:Hup;
    cbn [snd] in Hdb; [done| |done].
  exfalso. apply upload_array_inr in Hup as (_ & Hlen & Hall & _).
  destruct Hbig as [Hbig|Hbig]; [lia|].
  apply Exists_exists in Hbig as (part & Hin & Hsize).
  rewrite Forall_forall in Hall. specialize (Hall part Hin). lia.
Qed.

End Catalog.

(** ** Stored names and user directories *)

From Stdlib Require Import Ascii.

Lemma has_char_app c s t :
  has_char c (s +:+ t) <-> has_char c s \/ has_char c t.
Proof.
  induction s as [|a s IH].
  - change ("" +:+ t) with t. cbn. tauto.
  - change (String a s +:+ t) with (String a (s +:+ t)). cbn.
    rewrite IH. tauto.
Qed.

Lemma pretty_N_go_no_char c x s :
  (forall d, pretty_N_char d <> c) ->
  ~ has_char c s -> ~ has_char c (pretty_N_go x s).
Proof.
  intros Hc. revert s. induction (N.lt_wf_0 x) as [x _ IH]. intros s Hs.
  assert (x = 0 \/ 0 < x)%N as [->|Hpos] by lia.
  - by rewrite pretty_N_go_0.
  - rewrite pretty_N_go_step by done. apply IH.
    + by apply N.div_lt.
    + cbn. intros [Hd|Hr]; [by apply (Hc (x `mod` 10)%N)|done].
Qed.

Lemma pretty_N_no_char c (x : N) :
  (forall d, pretty_N_char d <> c) -> ~ has_char c (pretty x).
Proof.
  intros Hc. unfold pretty, pretty_N. destruct (decide (x = 0)%N).
  - cbn. intros [H0|[]]. by apply (Hc 0%N).
  - apply pretty_N_go_no_char; [done|]. cbn. tauto.
Qed.

Lemma digit_not_slash d : pretty_N_char d <> "/"%char.
Proof. unfold pretty_N_char. by repeat case_match. Qed.

Lemma digit_not_dash d : pretty_N_char d <> "-"%char.
Proof. unfold pretty_N_char. by repeat case_match. Qed.

Lemma pretty_Z_no_slash (z : Z) : ~ has_char "/" (pretty z).
Proof.
  unfold pretty, pretty_Z. destruct z as [|q|q].
  - cbn. intros [H|[]]. discriminate.
  - apply (pretty_N_no_char "/" (N.pos q)), digit_not_slash.
  - change ("-" +:+ pretty q) with (String "-" (pretty (N.pos q))). cbn.
    intros [H|H]; [discriminate|].
    by apply (pretty_N_no_char "/" (N.pos q) digit_not_slash).
Qed.

Lemma pretty_Z_no_dash (z : Z) : 0 <= z -> ~ has_char "-" (pretty z).
Proof.
  unfold pretty, pretty_Z. destruct z as [|q|q]; intros Hz; [| |lia].
  - cbn. intros [H|[]]. discriminate.
  - apply (pretty_N_no_char "-" (N.pos q)), digit_not_dash.
Qed.

(** Two strings that are cut at the first [c] agree on both sides of it. *)
Lemma split_at_first c s1 s2 t1 t2 :
  ~ has_char c s1 -> ~ has_char c s2 ->
  s1 +:+ String c t1 = s2 +:+ String c t2 ->
  s1 = s2 /\ t1 = t2.
Proof.
  revert s2. induction s1 as [|a s1 IH]; intros [|b s2] H1 H2 Heq.
  - change (String c t1 = String c t2) in Heq. by injection Heq as ->.
  - change (String c t1 = String b (s2 +:+ String c t2)) in Heq.
    injection Heq as -> _. destruct H2. by left.
  - change (String a (s1 +:+ String c t1) = String c t2) in Heq.
    injection Heq as -> _. destruct H1. by left.
  - change (String a (s1 +:+ String c t1) = String b (s2 +:+ String c t2))
      in Heq.
    injection Heq as -> Heq.
    destruct (IH s2) as [-> ->]; [| |done|done].
    + intros H. apply H1. by right.
    + intros H. apply H2. by right.
Qed.

Lemma user_paths_disjoint dir (id1 id2 : Z) f1 f2 :
  id1 <> id2 ->
  path_join [dir; pretty id1; f1] <> path_join [dir; pretty id2; f2].
Proof.
  intros Hne.
  change (path_join [dir; pretty id1; f1])
    with (dir +:+ "/" +:+ pretty id1 +:+ String "/" f1).
  change (path_join [dir; pretty id2; f2])
    with (dir +:+ "/" +:+ pretty id2 +:+ String "/" f2).
  intros H. apply (inj (String.app dir)) in H.
  apply (inj (String.app "/")) in H.
  apply split_at_first in H as [H _]; try apply pretty_Z_no_slash.
  by apply (inj pretty) in H.
Qed.

Lemma user_dir_is_no_artifact dir (id1 id2 : Z) f :
  path_join [dir; pretty id1] <> path_join [dir; pretty id2; f].
Proof.
  change (path_join [dir; pretty id1]) with (dir +:+ "/" +:+ pretty id1).
  change (path_join [dir; pretty id2; f])
    with (dir +:+ "/" +:+ pretty id2 +:+ String "/" f).
  intros H. apply (inj (String.app dir)) in H.
  apply (inj (String.app "/")) in H.
  apply (pretty_Z_no_slash id1). rewrite H. apply has_char_app.
  right. by left.
Qed.

(** X17.  The stored name tells the three things it is made of apart:
    with a clock and a random draw that are not negative, two parts get
    the same stored name only when they were stored in the same
    millisecond, with the same draw, under the same original name. *)
Theorem stored_name_is_injective (f1 f2 : incoming_file) :
  0 <= date_now f1 -> 0 <= random_1e9 f1 ->
  0 <= date_now f2 -> 0 <= random_1e9 f2 ->
  filename f1 = filename f2 ->
  date_now f1 = date_now f2 /\ random_1e9 f1 = random_1e9 f2 /\
  originalname f1 = originalname f2.
Proof.
  intros Hd1 Hr1 Hd2 Hr2. unfold filename. cbv zeta.
  rewrite !string_app_assoc.
  change ("-" +:+ pretty (random_1e9 f1) +:+ "-" +:+ originalname f1)
    with (String "-" (pretty (random_1e9 f1)
                      +:+ String "-" (originalname f1))).
  change ("-" +:+ pretty (random_1e9 f2) +:+ "-" +:+ originalname f2)
    with (String "-" (pretty (random_1e9 f2)
                      +:+ String "-" (originalname f2))).
  intros H.
  apply split_at_first in H as [Hd H]; try by apply pretty_Z_no_dash.
  apply split_at_first in H as [Hr Ho]; try by apply pretty_Z_no_dash.
  apply (inj pretty) in Hd, Hr. done.
Qed.

Lemma stored_name_is_injective_witness :
  filename Sample.notes
    = filename (IncomingFile "notes.txt" "image/png" [] 1700000000000 42) /\
  date_now Sample.notes = 1700000000000 /\
  random_1e9 Sample.notes = 42 /\
  originalname Sample.notes = "notes.txt".
Proof.
  split; [reflexivity|].
  refine (stored_name_is_injective Sample.notes
            (IncomingFile "notes.txt" "image/png" [] 1700000000000 42)
            _ _ _ _ eq_refl); vm_compute; discriminate.
Defined.

(** ** What a request can touch on disk *)

Lemma unlinkSync_frame p q w :
  q <> p -> w_fs (unlinkSync p w).2 !! q = w_fs w !! q.
Proof.
  intros Hne. run_storage.
  destruct (w_fs w !! p) as [[|]|]; step; try done.
  by rewrite lookup_delete_ne.
Qed.

Lemma removeUploadedFiles_frame uploaded q :
  forall w,
    (forall f, f ∈ uploaded -> mf_path f <> q) ->
    w_fs (removeUploadedFiles uploaded w).2 !! q = w_fs w !! q.
Proof.
  induction uploaded as [|f rest IH]; intros w Hne; [done|].
  cbn [removeUploadedFiles]. unfold bind, attempt.
  pose proof (unlinkSync_frame (mf_path f) q w) as Hu.
  destruct (unlinkSync (mf_path f) w) as [[[]|e] w']; cbn [snd] in Hu;
    rewrite IH, Hu; try done;
    try (intros Heq; eapply Hne; [left|done]);
    intros f' Hf'; apply Hne; by right.
Qed.

Lemma handleFile_frame cfg user part q w :
  q <> path_join [uploadsDir cfg; pretty (tok_id user)] ->
  q <> path_join [uploadsDir cfg; pretty (tok_id user); filename part] ->
  w_fs (handleFile cfg user part w).2 !! q = w_fs w !! q.
Proof.
  rewrite <- path_join_nested. run_storage.
  remember (path_join [uploadsDir cfg; pretty (tok_id user)]) as dir.
  intros Hdir Hpath.
  destruct (w_fs w !! dir) as [[|]|] eqn:Hd; step; rewrite ?Hd; step;
    rewrite ?lookup_insert_eq; try done;
    remember (path_join [dir; filename part]) as path.
  - destruct (w_fs w !! path) as [[|]|]; step; try done;
      by rewrite lookup_insert_ne.
  - destruct (<[dir:=Dir]> (w_fs w) !! path) as [[|]|]; step;
      by rewrite ?lookup_insert_ne.
Qed.

Lemma handleFile_path cfg user part w f w1 :
  handleFile cfg user part w = (Returned f, w1) ->
  mf_path f
    = path_join [uploadsDir cfg; pretty (tok_id user); filename part].
Proof.
  intros H. apply handleFile_Returned in H as (-> & _). done.
Qed.

(** The upload engine writes and unlinks only in the directory of the
    caller. *)
Lemma upload_array_frame cfg user parts q :
  q <> path_join [uploadsDir cfg; pretty (tok_id user)] ->
  (forall name,
     q <> path_join [uploadsDir cfg; pretty (tok_id user); name]) ->
  forall n uploaded w,
    (forall f, f ∈ uploaded -> mf_path f <> q) ->
    w_fs (upload_array cfg user n parts uploaded w).2 !! q = w_fs w !! q.
Proof.
  intros Hdir Hname.
  induction parts as [|part rest IH]; intros n uploaded w Hup; [done|].
  cbn [upload_array]. destruct n as [|n].
  - unfold bind, ret.
    pose proof (removeUploadedFiles_frame uploaded q w Hup) as Hr.
    by destruct (removeUploadedFiles uploaded w) as [[[]|e] w'].
  - unfold bind at 1. unfold attempt.
    pose proof (handleFile_frame cfg user part q w Hdir (Hname _)) as Hh.
    destruct (handleFile cfg user part w) as [[f|e] w'] eqn:Hrun;
      cbn [snd] in Hh.
    + apply handleFile_path in Hrun.
      assert (Hup' : forall f', f' ∈ (uploaded ++ [f])%list ->
                                mf_path f' <> q).
      { intros f' Hin. apply elem_of_app in Hin as [Hin|Hin];
          [by apply Hup|].
        apply list_elem_of_singleton in Hin as ->. rewrite Hrun.
        intros Heq. by apply (Hname (filename part)). }
      destruct (decide (fileSize cfg < Z.of_nat (length (content part)))).
      * unfold bind, ret.
        pose proof (removeUploadedFiles_frame (uploaded ++ [f]) q w' Hup')
          as Hr.
        destruct (removeUploadedFiles (uploaded ++ [f]) w') as [[[]|e] w2];
          cbn [snd] in *; congruence.
      * rewrite IH by done. exact Hh.
    + unfold bind, ret.
      pose proof (removeUploadedFiles_frame uploaded q w' Hup) as Hr.
      destruct (removeUploadedFiles uploaded w') as [[[]|e'] w2];
        cbn [snd] in *; congruence.
Qed.

Lemma reading_rename_keeps_disk cfg now auth fileId newName w :
  w_fs (rename cfg now auth fileId newName w).2 = w_fs w /\
  users (w_db (rename cfg now auth fileId newName w).2) = users (w_db w).
Proof.
  unfold rename, authenticated.
  destruct (authenticateToken (JWT_SECRET cfg) now auth) as [e|user];
    [done|].
  run_request. destruct (falsy newName); [done|]. step.
  destruct (select_file_owned (w_db w) fileId (tok_id user)) as [[k r]|];
    step; [|done].
  unfold update_original_name. by destruct (param_rowid fileId).
Qed.

Section Isolation.

Context (cfg : config).

(** X18.  Users are isolated on disk: whatever user A uploads, deletes
    or renames with a valid token, and however the request ends, the disk
    is unchanged at the artifact path of any record that belongs to
    another user. *)
Theorem other_users_artifacts_are_untouched
    now auth user parts fileId newName r w :
  authenticateToken (JWT_SECRET cfg) now auth = inr user ->
  f_user_id r <> tok_id user ->
  w_fs (upload cfg now auth parts w).2 !! artifact_path cfg r
    = w_fs w !! artifact_path cfg r /\
  w_fs (delete_file cfg now auth fileId w).2 !! artifact_path cfg r
    = w_fs w !! artifact_path cfg r /\
  w_fs (rename cfg now auth fileId newName w).2 !! artifact_path cfg r
    = w_fs w !! artifact_path cfg r.
Proof.
  intros Hauth Hother. split; [|split].
  - unfold upload. rewrite (authenticated_ok _ _ _ _ _ Hauth).
    unfold upload_route. destruct parts as [parts|]; [|done].
    pose proof (upload_array_frame cfg user parts (artifact_path cfg r))
      as Hframe.
    specialize (Hframe (not_eq_sym (user_dir_is_no_artifact _ _ _ _))).
    specialize (Hframe
      (fun name => user_paths_disjoint _ _ _ _ name Hother) 10%nat [] w).
    rewrite <- Hframe by (intros f Hf; by apply elem_of_nil in Hf).
    destruct (upload_array cfg user 10 parts [] w) as [[[err|fl]|e] w1];
      cbn [snd]; [done| |done].
    unfold upload_handler.
    destruct (handle_stores "Upload error:" "Failed to upload files"
                (upload_body user (Some fl) now) w1) as [_ ->].
    destruct fl as [|f fl]; [done|].
    rewrite upload_body_nonempty by done. unfold bind.
    pose proof (upload_loop_db user now (f :: fl) [] w1) as Hloop.
    cbv zeta in Hloop.
    destruct (upload_loop user now (f :: fl) [] w1) as [[x|e] w2];
      cbn [snd ret] in *; by destruct Hloop as (_ & _ & -> & _).
  - unfold delete_file. rewrite (authenticated_ok _ _ _ _ _ Hauth).
    run_request.
    destruct (select_file_owned (w_db w) fileId (tok_id user))
      as [[k r']|] eqn:Hs; step; [|done].
    assert (Hne : artifact_path cfg r <> file_path cfg user r').
    { unfold artifact_path, file_path. by apply user_paths_disjoint. }
    destruct (w_fs w !! file_path cfg user r') as [[|]|] eqn:Hfs; step;
      rewrite ?Hfs; step; try done.
    by rewrite lookup_delete_ne.
  - destruct (reading_rename_keeps_disk cfg now auth fileId newName w)
      as [-> _]. done.
Qed.

End Isolation.

(** ** The announced address *)

Lemma keep_last_external (l : list iface) (acc : string) :
  fold_left
    (fun localIP i => if external_ipv4 i then address i else localIP) l acc
  = from_option address acc
      (last (filter (fun i => Is_true (external_ipv4 i)) l)).
Proof.
  revert acc. induction l as [|i l IH]; intros acc; [done|].
  cbn [fold_left]. rewrite IH, filter_cons.
  destruct (external_ipv4 i) eqn:Hi.
  - rewrite decide_True by done. rewrite last_cons.
    by destruct (last _).
  - rewrite decide_False by (intros []). reflexivity.
Qed.

(** X19.  The address the server announces is the address of the last
    network interface entry, in the order the operating system lists
    them, that is IPv4 and not internal; when there is none it is
    [localhost]. *)
Theorem localIP_is_last_external (networkInterfaces : list (string * list iface)) :
  localIP networkInterfaces
  = from_option address "localhost"
      (last (filter (fun i => Is_true (external_ipv4 i))
                    (concat networkInterfaces.*2))).
Proof.
  unfold localIP. generalize "localhost" as acc.
  induction networkInterfaces as [|[name ifaces] rest IH]; intros acc;
    [done|].
  cbn [fold_left snd fmap list_fmap concat]. rewrite IH, keep_last_external.
  rewrite filter_app, last_app.
  by destruct (last _).
Qed.

(** ** The properties at work on the sample data *)

Lemma sample_files_have_owner : files_have_owner (w_db Sample.stocked).
Proof.
  intros k r Hk. unfold Sample.stocked in Hk. cbn [w_db files] in Hk.
  rewrite lookup_insert in Hk. destruct (decide (1 = k)) as [<-|];
    [|by rewrite lookup_empty in Hk].
  injection Hk as <-. by eexists.
Defined.

Lemma sample_rowids_bounded : rowids_bounded (w_db Sample.stocked).
Proof.
  intros k r Hk. unfold Sample.stocked in Hk. cbn [w_db files] in Hk.
  rewrite lookup_insert in Hk. destruct (decide (1 = k)) as [<-|];
    [|by rewrite lookup_empty in Hk].
  cbn. lia.
Defined.

Lemma catalog_records_keep_an_owner_witness :
  files_have_owner (w_db Sample.stocked) /\
  files_have_owner
    (w_db (upload Sample.cfg 1 (Sample.token_of Sample.bob)
             (Some [Sample.notes]) Sample.stocked).2).
Proof.
  split; [exact sample_files_have_owner|].
  exact (proj1 (proj2 (catalog_records_keep_an_owner Sample.cfg Sample.hash
                  None None None "" 1 (Sample.token_of Sample.bob)
                  (Some [Sample.notes]) (ParamInt 1) None Sample.stocked
                  sample_files_have_owner))).
Defined.

Lemma accepted_upload_adds_fresh_records_witness :
  status_of (upload Sample.cfg 1 (Sample.token_of Sample.bob)
               (Some [Sample.notes]) Sample.stocked).1 = Some 201 /\
  files (w_db (upload Sample.cfg 1 (Sample.token_of Sample.bob)
                 (Some [Sample.notes]) Sample.stocked).2) !! 1
    = Some Sample.notes_row.
Proof.
  split; [reflexivity|].
  destruct (accepted_upload_adds_fresh_records Sample.cfg 1
              (Sample.token_of Sample.bob) Sample.bob [Sample.notes]
              Sample.stocked eq_refl eq_refl)
    as (ids & _ & _ & _ & _ & Hold & _).
  apply Hold. reflexivity.
Defined.

Lemma rowids_stay_bounded_witness :
  rowids_bounded (w_db Sample.stocked) /\
  rowids_bounded
    (w_db (delete_file Sample.cfg 1 (Sample.token_of Sample.alice)
             (ParamInt 1) Sample.stocked).2).
Proof.
  split; [exact sample_rowids_bounded|].
  exact (proj2 (proj2 (proj2 (rowids_stay_bounded Sample.cfg Sample.hash
                  None None None "" 1 (Sample.token_of Sample.alice)
                  None (ParamInt 1) None Sample.stocked
                  sample_rowids_bounded)))).
Defined.


Lemma oversized_upload_is_a_500_witness :
  (10 < length (replicate 11 Sample.notes))%nat /\
  (upload Sample.cfg 1 (Sample.token_of Sample.alice)
     (Some (replicate 11 Sample.notes)) Sample.stocked).1 = FinalHandler 500.
Proof.
  split; [cbn; lia|].
  refine (proj1 (oversized_upload_is_a_500 Sample.cfg 1
            (Sample.token_of Sample.alice) Sample.alice
            (replicate 11 Sample.notes) Sample.stocked eq_refl
            (or_introl _))).
  cbn. lia.
Defined.

Lemma other_users_artifacts_are_untouched_witness :
  f_user_id Sample.notes_row <> tok_id Sample.bob /\
  w_fs (upload Sample.cfg 1 (Sample.token_of Sample.bob)
          (Some [Sample.notes]) Sample.stocked).2
    !! artifact_path Sample.cfg Sample.notes_row
  = Some (File [x68; x69]).
Proof.
  assert (Hne : f_user_id Sample.notes_row <> tok_id Sample.bob)
    by discriminate.
  split; [exact Hne|].
  rewrite (proj1 (other_users_artifacts_are_untouched Sample.cfg 1
             (Sample.token_of Sample.bob) Sample.bob (Some [Sample.notes])
             (ParamInt 1) None Sample.notes_row Sample.stocked eq_refl Hne)).
  reflexivity.
Defined.

(** With a loopback entry, an IPv6 entry and two external IPv4 entries,
    the last external one is announced; with loopback only, [localhost]. *)
Example localIP_samples :
  localIP [("lo", [Demo.lo; Demo.lo6]); ("eth0", [Demo.eth]);
           ("wlan0", [Demo.wlan])] = "10.0.0.7" /\
  localIP [("lo", [Demo.lo; Demo.lo6])] = "localhost".
Proof. split; reflexivity. Qed.
